(** * A shallow embedding of the Terraform generator of [ec2-to-terraform.py]

    Python [str] values are sequences of code points; they are modelled as
    [text := list Z].  Dictionaries returned by the EC2 API are modelled as
    records of [option] fields: a key that is absent (or maps to [None]) is
    [None].  Library behaviour that the program only calls (the Unicode
    database behind [str.isalnum] / [str.isdigit] / [str.lower], and
    [base64.b64decode(..).decode('utf-8')]) is taken as a parameter, so every
    result below holds for any such behaviour unless a hypothesis says
    otherwise. *)

From Stdlib Require Import ZArith List Bool Ascii String Lia.
From Stdlib Require Import Sorting.Permutation Sorting.Sorted.
Import ListNotations.
Open Scope Z_scope.

(** ** Text *)

Definition text := list Z.

(** A string literal of the source, as code points (literals are ASCII). *)
Fixpoint lit (s : string) : text :=
  match s with
  | EmptyString => []
  | String c s' => Z.of_nat (nat_of_ascii c) :: lit s'
  end.

Definition dq : text := [34].            (* the double-quote character *)
Definition quoted (t : text) : text := dq ++ t ++ dq.
Definition nl : text := [10].

Definition text_eqb (a b : text) : bool :=
  if list_eq_dec Z.eq_dec a b then true else false.

(** Python truthiness of a [str]. *)
Definition truthy_text (t : option text) : bool :=
  match t with Some (_ :: _) => true | _ => false end.

(** [sep.join(xs)] *)
Fixpoint join (sep : text) (xs : list text) : text :=
  match xs with
  | [] => []
  | [x] => x
  | x :: xs' => x ++ sep ++ join sep xs'
  end.

(** [s.split(sep)] for a one-character separator. *)
Fixpoint split_on (c : Z) (s : text) : list text :=
  match s with
  | [] => [[]]
  | x :: s' =>
      if Z.eqb x c then [] :: split_on c s'
      else match split_on c s' with
           | [] => [[x]]
           | w :: ws => (x :: w) :: ws
           end
  end.

(** [' ' * n] *)
Definition spaces (n : nat) : text := repeat 32 n.

(** [str(n)] for a Python [int]. *)
Fixpoint digits_rev (fuel : nat) (n : Z) : text :=
  match fuel with
  | O => []
  | S f =>
      (48 + n mod 10) :: (if n / 10 =? 0 then [] else digits_rev f (n / 10))
  end.

Definition z_str (n : Z) : text :=
  let a := Z.abs n in
  (if n <? 0 then [45] else []) ++ rev (digits_rev (S (Z.to_nat a)) a).

(** [str(b).lower()] for a Python [bool]. *)
Definition bool_str (b : bool) : text := if b then lit "true" else lit "false".

(** ** [json.dumps] on a list of strings (default [ensure_ascii=True]) *)

Definition hex_digit (n : Z) : Z := if n <? 10 then 48 + n else 87 + n.

(** ['\\u{0:04x}'.format(n)] *)
Definition u_escape (n : Z) : text :=
  [92; 117; hex_digit (Z.shiftr n 12 mod 16); hex_digit (Z.shiftr n 8 mod 16);
   hex_digit (Z.shiftr n 4 mod 16); hex_digit (n mod 16)].

Definition json_char (c : Z) : text :=
  if Z.eqb c 92 then [92; 92]
  else if Z.eqb c 34 then [92; 34]
  else if Z.eqb c 8 then [92; 98]
  else if Z.eqb c 12 then [92; 102]
  else if Z.eqb c 10 then [92; 110]
  else if Z.eqb c 13 then [92; 114]
  else if Z.eqb c 9 then [92; 116]
  else if (32 <=? c) && (c <=? 126) then [c]
  else if c <? 65536 then u_escape c
  else let n := c - 65536 in
       u_escape (Z.lor 55296 (Z.land (Z.shiftr n 10) 1023)) ++
       u_escape (Z.lor 56320 (Z.land n 1023)).

Definition json_str (s : text) : text := dq ++ flat_map json_char s ++ dq.

Definition json_dumps (xs : list text) : text :=
  lit "[" ++ join (lit ", ") (map json_str xs) ++ lit "]".

(** ** Python exceptions raised by the emitter *)

Inductive py_exc := IndexError.

Inductive Exc (A : Type) := Ok (a : A) | Raise (e : py_exc).
Arguments Ok {A} a.
Arguments Raise {A} e.

Definition exc_bind {A B} (m : Exc A) (f : A -> Exc B) : Exc B :=
  match m with Ok a => f a | Raise e => Raise e end.
Definition exc_map {A B} (f : A -> B) (m : Exc A) : Exc B :=
  exc_bind m (fun a => Ok (f a)).

Notation "x <- m ;; k" := (exc_bind m (fun x => k))
  (at level 61, m at next level, right associativity).

(** ** The character database used by [str] methods

    [uc_lower] is the full lower-case mapping used by [str.lower] (one code
    point may map to several). *)

Record UCD := {
  uc_isalnum : Z -> bool;
  uc_isdigit : Z -> bool;
  uc_lower : Z -> text
}.

Definition ascii_isdigit (c : Z) : bool := (48 <=? c) && (c <=? 57).
Definition ascii_isalpha (c : Z) : bool :=
  ((65 <=? c) && (c <=? 90)) || ((97 <=? c) && (c <=? 122)).
Definition ascii_isalnum (c : Z) : bool := ascii_isdigit c || ascii_isalpha c.
Definition ascii_lower (c : Z) : Z :=
  if (65 <=? c) && (c <=? 90) then c + 32 else c.

(** A database agrees with Python's on the ASCII range. *)
Definition ascii_agree (u : UCD) : Prop :=
  forall c, 0 <= c < 128 ->
    uc_isalnum u c = ascii_isalnum c /\ uc_isdigit u c = ascii_isdigit c /\
    uc_lower u c = [ascii_lower c].

Definition is_ascii (s : text) : Prop := Forall (fun c => 0 <= c < 128) s.

(** The ASCII part of Python's database; every other code point is treated
    as a non-alphanumeric character with no case mapping. *)
Definition ascii_ucd : UCD := {|
  uc_isalnum := ascii_isalnum;
  uc_isdigit := ascii_isdigit;
  uc_lower := fun c => [ascii_lower c]
|}.

(** The same, extended with Python's entries for U+0130 (LATIN CAPITAL
    LETTER I WITH DOT ABOVE: alphabetic, [lower()] is U+0069 U+0307) and
    U+0307 (COMBINING DOT ABOVE: category Mn, not alphanumeric). *)
Definition sample_ucd : UCD := {|
  uc_isalnum := fun c => ascii_isalnum c || Z.eqb c 304;
  uc_isdigit := ascii_isdigit;
  uc_lower := fun c => if Z.eqb c 304 then [105; 775] else [ascii_lower c]
|}.

(** [s.lower()], code point by code point.  Python lowers U+03A3 by its
    context (final sigma); this map has no context, so it is faithful on
    text without U+03A3, which covers every ASCII text. *)
Definition str_lower (u : UCD) (s : text) : text := flat_map (uc_lower u) s.

(** ** [_sanitize_resource_name] *)

Section Sanitize.
Variable u : UCD.

Definition sanitize_char (c : Z) : Z :=
  if uc_isalnum u c || Z.eqb c 95 then c else 95.

Definition _sanitize_resource_name (name : text) : text :=
  let sanitized := map sanitize_char name in
  let sanitized :=
    match sanitized with
    | c :: _ => if uc_isdigit u c then 95 :: sanitized else sanitized
    | [] => sanitized
    end in
  match sanitized with
  | [] => lit "instance"
  | _ => str_lower u sanitized
  end.

End Sanitize.

(** ** Tags and [_format_tags] *)

Record Tag := { tag_Key : option text; tag_Value : option text }.

Definition get_or (d : text) (o : option text) : text :=
  match o with Some t => t | None => d end.

(** [s.replace(..)] escaping each double quote with a backslash *)
Definition escape_dq (s : text) : text :=
  flat_map (fun c => if Z.eqb c 34 then [92; 34] else [c]) s.

Definition tag_line (indent : nat) (tag : Tag) : text :=
  let key := get_or [] (tag_Key tag) in
  let value := escape_dq (get_or [] (tag_Value tag)) in
  spaces (indent + 2) ++ key ++ lit " = " ++ quoted value.

(** The [for tag in tags: lines.append(...)] loop. *)
Fixpoint tag_loop (indent : nat) (tags : list Tag) (lines : list text)
  : list text :=
  match tags with
  | [] => lines
  | tag :: rest => tag_loop indent rest (lines ++ [tag_line indent tag])
  end.

Definition _format_tags (tags : list Tag) (indent : nat) : text :=
  match tags with
  | [] => spaces indent ++ lit "tags = {}"
  | _ =>
      let lines := [spaces indent ++ lit "tags = {"] in
      let lines := tag_loop indent tags lines in
      let lines := lines ++ [spaces indent ++ lit "}"] in
      join nl lines
  end.

(** [_get_tag_value] *)
Fixpoint _get_tag_value (tags : list Tag) (key : text) : option text :=
  match tags with
  | [] => None
  | tag :: rest =>
      match tag_Key tag with
      | Some k => if text_eqb k key then tag_Value tag else _get_tag_value rest key
      | None => _get_tag_value rest key
      end
  end.

(** ** The data returned by the EC2 API *)

Record Group := { GroupId : text }.

Record Placement := {
  AvailabilityZone : option text;
  Tenancy : option text;
  GroupName : option text;
  HostId : option text
}.

(** An entry of the instance's own [NetworkInterfaces] list. *)
Record InstanceNetworkInterface := { ini_Groups : option (list Group) }.

Record IamInstanceProfile := { iam_Arn : option text }.

(** The [{'Value': ...}] dictionaries of [describe_instance_attribute]. *)
Record BoolAttribute := { battr_Value : option bool }.
Record TextAttribute := { tattr_Value : option text }.

Record Monitoring := { mon_State : option text }.
Record CreditSpecification := { CpuCredits : option text }.

Record MetadataOptions := {
  md_State : option text;
  HttpTokens : option text;
  HttpPutResponseHopLimit : option Z;
  HttpEndpoint : option text;
  HttpProtocolIpv6 : option text;
  InstanceMetadataTags : option text
}.

Record EnclaveOptions := { enc_Enabled : option bool }.
Record CapacityReservationSpecification :=
  { CapacityReservationPreference : option text }.
Record HibernationOptions := { Configured : option bool }.

Record Ebs := {
  ebs_VolumeId : option text;
  ebs_DeleteOnTermination : option bool
}.

Record BlockDeviceMapping := {
  DeviceName : text;
  bdm_Ebs : option Ebs;
  VirtualName : option text
}.

Record Instance := {
  ImageId : option text;
  InstanceType : option text;
  KeyName : option text;
  inst_Placement : option Placement;
  SubnetId : option text;
  SecurityGroups : option (list Group);
  NetworkInterfaces : option (list InstanceNetworkInterface);
  PrivateIpAddress : option text;
  inst_IamInstanceProfile : option IamInstanceProfile;
  SourceDestCheckAttribute : option BoolAttribute;
  inst_Monitoring : option Monitoring;
  EbsOptimized : option bool;
  DisableApiTerminationAttribute : option BoolAttribute;
  inst_CreditSpecification : option CreditSpecification;
  inst_MetadataOptions : option MetadataOptions;
  inst_EnclaveOptions : option EnclaveOptions;
  inst_CapacityReservationSpecification :
    option CapacityReservationSpecification;
  inst_HibernationOptions : option HibernationOptions;
  UserDataAttribute : option TextAttribute;
  RootDeviceName : option text;
  BlockDeviceMappings : option (list BlockDeviceMapping);
  inst_Tags : option (list Tag)
}.

Record Volume := {
  vol_VolumeId : text;
  VolumeType : option text;
  Size : option Z;
  Iops : option Z;
  Throughput : option Z;
  Encrypted : option bool;
  KmsKeyId : option text;
  vol_Tags : option (list Tag)
}.

Record Attachment := { DeviceIndex : option Z }.
Record PrivateIp := { eni_PrivateIpAddress : text }.

Record NetworkInterface := {
  eni_Attachment : option Attachment;
  eni_SubnetId : option text;
  eni_Groups : option (list Group);
  PrivateIpAddresses : option (list PrivateIp);
  eni_SourceDestCheck : option bool;
  TagSet : option (list Tag)
}.

Record Address := { eip_Tags : option (list Tag) }.

(** The state of an [EC2ToTerraform] object once [describe_instance] ran. *)
Record EC2ToTerraform := {
  region : text;
  instance_id : text;
  instance_data : option Instance;
  volumes_data : list Volume;
  network_interfaces_data : list NetworkInterface;
  elastic_ips_data : list Address
}.

(** ** Python idioms on optional values *)

Definition get_list {A} (o : option (list A)) : list A :=
  match o with Some l => l | None => [] end.

Definition truthy_list {A} (o : option (list A)) : bool :=
  match o with Some (_ :: _) => true | _ => false end.

Definition truthy_bool (o : option bool) : bool :=
  match o with Some b => b | None => false end.

Definition truthy_int (o : option Z) : bool :=
  match o with Some n => negb (Z.eqb n 0) | None => false end.

Definition is_some {A} (o : option A) : bool :=
  match o with Some _ => true | None => false end.

(** A one-line emission guarded by the truthiness of a [str] field. *)
Definition when_text (o : option text) (f : text -> text) : list text :=
  match o with Some ((_ :: _) as t) => [f t] | _ => [] end.

Definition opt_text_eqb (a b : option text) : bool :=
  match a, b with
  | Some x, Some y => text_eqb x y
  | None, None => true
  | _, _ => false
  end.

(** A dictionary is truthy when it has a key. *)
Definition ebs_truthy (e : Ebs) : bool :=
  is_some (ebs_VolumeId e) || is_some (ebs_DeleteOnTermination e).

Definition metadata_truthy (m : MetadataOptions) : bool :=
  is_some (md_State m) || is_some (HttpTokens m) ||
  is_some (HttpPutResponseHopLimit m) || is_some (HttpEndpoint m) ||
  is_some (HttpProtocolIpv6 m) || is_some (InstanceMetadataTags m).

Definition empty_ni : InstanceNetworkInterface := {| ini_Groups := None |}.
Definition empty_ebs : Ebs :=
  {| ebs_VolumeId := None; ebs_DeleteOnTermination := None |}.

(** ** [_generate_instance_resource] *)

Section Emitter.
Variable u : UCD.
(** [base64.b64decode(v).decode('utf-8')]; [None] when it raises. *)
Variable b64decode_utf8 : text -> option text.

(** [self._get_tag_value(tags, 'Name') or self.instance_id] *)
Definition instance_name (self : EC2ToTerraform) (instance : Instance) : text :=
  match _get_tag_value (get_list (inst_Tags instance)) (lit "Name") with
  | Some ((_ :: _) as n) => n
  | _ => instance_id self
  end.

Definition resource_name (self : EC2ToTerraform) (instance : Instance) : text :=
  _sanitize_resource_name u (instance_name self instance).

Definition head_lines (rn : text) (instance : Instance) : list text :=
  [lit "resource " ++ quoted (lit "aws_instance") ++ lit " " ++ quoted rn ++ lit " {";
   lit "  ami           = " ++ quoted (get_or [] (ImageId instance));
   lit "  instance_type = " ++ quoted (get_or [] (InstanceType instance))].

Definition placement_field (f : Placement -> option text) (instance : Instance)
  : option text :=
  match inst_Placement instance with Some p => f p | None => None end.

Definition key_lines (instance : Instance) : list text :=
  when_text (KeyName instance) (fun k => lit "  key_name      = " ++ quoted k).

Definition az_lines (instance : Instance) : list text :=
  when_text (placement_field AvailabilityZone instance)
    (fun z => lit "  availability_zone = " ++ quoted z).

Definition subnet_lines (instance : Instance) : list text :=
  when_text (SubnetId instance) (fun s => lit "  subnet_id     = " ++ quoted s).

(** The security-group lines, including the evaluation of
    [instance.get('SecurityGroups') or
     instance.get('NetworkInterfaces', [{}])[0].get('Groups')]. *)
Definition sg_lines (instance : Instance) : Exc (list text) :=
  cond <- (if truthy_list (SecurityGroups instance) then Ok true
           else match (match NetworkInterfaces instance with
                       | Some l => l | None => [empty_ni] end) with
                | [] => Raise IndexError
                | ni :: _ => Ok (truthy_list (ini_Groups ni))
                end) ;;
  if cond then
    let sg_ids :=
      match NetworkInterfaces instance with
      | Some (ni :: _) => map GroupId (get_list (ini_Groups ni))
      | _ => if truthy_list (SecurityGroups instance)
             then map GroupId (get_list (SecurityGroups instance)) else []
      end in
    Ok (match sg_ids with
        | [] => []
        | _ => [lit "  vpc_security_group_ids = " ++ json_dumps sg_ids]
        end)
  else Ok [].

Definition private_ip_lines (instance : Instance) : list text :=
  when_text (PrivateIpAddress instance)
    (fun p => lit "  private_ip    = " ++ quoted p).

Definition iam_lines (instance : Instance) : list text :=
  match inst_IamInstanceProfile instance with
  | Some p =>
      let arn := get_or [] (iam_Arn p) in
      let name := match arn with [] => [] | _ => last (split_on 47 arn) [] end in
      when_text (Some name) (fun n => lit "  iam_instance_profile = " ++ quoted n)
  | None => []
  end.

Definition src_dst_lines (instance : Instance) : list text :=
  let src_dst_check :=
    match SourceDestCheckAttribute instance with
    | Some a => match battr_Value a with Some b => b | None => true end
    | None => true
    end in
  if negb src_dst_check then [lit "  source_dest_check = false"] else [].

Definition monitoring_lines (instance : Instance) : list text :=
  match inst_Monitoring instance with
  | Some m => if opt_text_eqb (mon_State m) (Some (lit "enabled"))
              then [lit "  monitoring = true"] else []
  | None => []
  end.

Definition ebs_optimized_lines (instance : Instance) : list text :=
  if truthy_bool (EbsOptimized instance) then [lit "  ebs_optimized = true"] else [].

Definition termination_lines (instance : Instance) : list text :=
  let disable_api_termination :=
    match DisableApiTerminationAttribute instance with
    | Some a => match battr_Value a with Some b => b | None => false end
    | None => false
    end in
  if disable_api_termination then [lit "  disable_api_termination = true"] else [].

Definition tenancy_lines (instance : Instance) : list text :=
  match placement_field Tenancy instance with
  | Some ((_ :: _) as t) =>
      if text_eqb t (lit "default") then []
      else [lit "  tenancy = " ++ quoted t]
  | _ => []
  end.

Definition placement_group_lines (instance : Instance) : list text :=
  when_text (placement_field GroupName instance)
    (fun g => lit "  placement_group = " ++ quoted g).

Definition host_lines (instance : Instance) : list text :=
  when_text (placement_field HostId instance) (fun h => lit "  host_id = " ++ quoted h).

Definition credit_lines (instance : Instance) : list text :=
  match inst_CreditSpecification instance with
  | Some cs =>
      match CpuCredits cs with
      | Some ((_ :: _) as c) =>
          [nl ++ lit "  credit_specification {";
           lit "    cpu_credits = " ++ quoted c;
           lit "  }"]
      | _ => []
      end
  | None => []
  end.

Definition metadata_lines (instance : Instance) : list text :=
  match inst_MetadataOptions instance with
  | Some metadata =>
      if metadata_truthy metadata then
        [nl ++ lit "  metadata_options {"] ++
        when_text (HttpEndpoint metadata)
          (fun v => lit "    http_endpoint               = " ++ quoted v) ++
        when_text (HttpTokens metadata)
          (fun v => lit "    http_tokens                 = " ++ quoted v) ++
        (match HttpPutResponseHopLimit metadata with
         | Some n => if negb (Z.eqb n 0)
                     then [lit "    http_put_response_hop_limit = " ++ z_str n]
                     else []
         | None => []
         end) ++
        when_text (InstanceMetadataTags metadata)
          (fun v => lit "    instance_metadata_tags      = " ++ quoted v) ++
        [lit "  }"]
      else []
  | None => []
  end.

Definition enclave_lines (instance : Instance) : list text :=
  match inst_EnclaveOptions instance with
  | Some e =>
      if truthy_bool (enc_Enabled e)
      then [nl ++ lit "  enclave_options {"; lit "    enabled = true"; lit "  }"]
      else []
  | None => []
  end.

Definition capacity_lines (instance : Instance) : list text :=
  match inst_CapacityReservationSpecification instance with
  | Some cap_res =>
      match CapacityReservationPreference cap_res with
      | Some ((_ :: _) as p) =>
          [nl ++ lit "  capacity_reservation_specification {";
           lit "    capacity_reservation_preference = " ++ quoted p;
           lit "  }"]
      | _ => []
      end
  | None => []
  end.

Definition hibernation_lines (instance : Instance) : list text :=
  match inst_HibernationOptions instance with
  | Some h => if truthy_bool (Configured h) then [nl ++ lit "  hibernation = true"] else []
  | None => []
  end.

Definition decoded_header : text := lit "  # Decoded user data:".

Definition user_data_lines (instance : Instance) : list text :=
  let value :=
    match UserDataAttribute instance with Some a => tattr_Value a | None => None end in
  match value with
  | Some ((_ :: _) as user_data_encoded) =>
      [nl ++ lit "  # User data (base64 encoded)";
       lit "  user_data_base64 = " ++ quoted user_data_encoded] ++
      match b64decode_utf8 user_data_encoded with
      | Some user_data_decoded =>
          if Nat.ltb (List.length user_data_decoded) 500 then
            decoded_header ::
            map (fun line => lit "  # " ++ line) (split_on 10 user_data_decoded)
          else []
      | None => []
      end
  | _ => []
  end.

(** The first volume of [volumes_data] whose id is [volume_id]. *)
Fixpoint find_volume (vols : list Volume) (volume_id : option text)
  : option Volume :=
  match vols with
  | [] => None
  | vol :: rest =>
      if opt_text_eqb (Some (vol_VolumeId vol)) volume_id then Some vol
      else find_volume rest volume_id
  end.

Definition volume_detail_lines (volume_details : Volume) : list text :=
  [lit "    volume_type           = " ++
     quoted (get_or (lit "gp2") (VolumeType volume_details));
   lit "    volume_size           = " ++
     z_str (match Size volume_details with Some n => n | None => 8 end)] ++
  (if truthy_int (Iops volume_details)
   then [lit "    iops                  = " ++ z_str (match Iops volume_details with Some n => n | None => 0 end)]
   else []) ++
  (if truthy_int (Throughput volume_details)
   then [lit "    throughput            = " ++ z_str (match Throughput volume_details with Some n => n | None => 0 end)]
   else []) ++
  (if truthy_bool (Encrypted volume_details)
   then [lit "    encrypted             = true"] else []) ++
  when_text (KmsKeyId volume_details)
    (fun k => lit "    kms_key_id            = " ++ quoted k).

Definition volume_tag_lines (volume_details : Volume) : list text :=
  if truthy_list (vol_Tags volume_details)
  then [nl ++ _format_tags (get_list (vol_Tags volume_details)) 4] else [].

Definition delete_line (e : Ebs) : text :=
  lit "    delete_on_termination = " ++
  bool_str (match ebs_DeleteOnTermination e with Some b => b | None => true end).

(** The [for bd in ...: if bd.get('DeviceName') == root_device_name:] search:
    [Some (bd.get('Ebs', {}))] for the first match. *)
Fixpoint find_root_volume (root_device_name : option text)
    (bds : list BlockDeviceMapping) : option Ebs :=
  match bds with
  | [] => None
  | bd :: rest =>
      if opt_text_eqb (Some (DeviceName bd)) root_device_name
      then Some (match bdm_Ebs bd with Some e => e | None => empty_ebs end)
      else find_root_volume root_device_name rest
  end.

Definition root_marker : text := nl ++ lit "  root_block_device {".
Definition ebs_marker : text := nl ++ lit "  ebs_block_device {".

Definition root_block_lines (volumes : list Volume) (instance : Instance)
  : list text :=
  let root_device_name := RootDeviceName instance in
  match root_device_name with
  | Some (_ :: _) =>
      match find_root_volume root_device_name
              (get_list (BlockDeviceMappings instance)) with
      | Some root_volume =>
          if ebs_truthy root_volume then
            let volume_details := find_volume volumes (ebs_VolumeId root_volume) in
            [root_marker] ++
            (match volume_details with
             | Some v => volume_detail_lines v | None => [] end) ++
            [delete_line root_volume] ++
            (match volume_details with
             | Some v => volume_tag_lines v | None => [] end) ++
            [lit "  }"]
          else []
      | None => []
      end
  | _ => []
  end.

(** [bd.get('DeviceName') != root_device_name and bd.get('Ebs')] *)
Definition is_ebs_device (root_device_name : option text)
    (bd : BlockDeviceMapping) : bool :=
  negb (opt_text_eqb (Some (DeviceName bd)) root_device_name) &&
  match bdm_Ebs bd with Some e => ebs_truthy e | None => false end.

Definition device_line (device_name : text) : text :=
  lit "    device_name           = " ++ quoted device_name.

Definition ebs_block (volumes : list Volume) (bd : BlockDeviceMapping)
  : list text :=
  let ebs_info := match bdm_Ebs bd with Some e => e | None => empty_ebs end in
  let volume_details := find_volume volumes (ebs_VolumeId ebs_info) in
  [ebs_marker; device_line (DeviceName bd)] ++
  (match volume_details with
   | Some v => volume_detail_lines v ++ volume_tag_lines v
   | None => []
   end) ++
  [delete_line ebs_info; lit "  }"].

Definition ebs_block_lines (volumes : list Volume) (instance : Instance)
  : list text :=
  let ebs_devices :=
    filter (is_ebs_device (RootDeviceName instance))
      (get_list (BlockDeviceMappings instance)) in
  flat_map (ebs_block volumes) ebs_devices.

Definition ephemeral_block (bd : BlockDeviceMapping) : list text :=
  match VirtualName bd with
  | Some ((_ :: _) as v) =>
      [nl ++ lit "  ephemeral_block_device {";
       lit "    device_name  = " ++ quoted (DeviceName bd);
       lit "    virtual_name = " ++ quoted v;
       lit "  }"]
  | _ => []
  end.

Definition ephemeral_lines (instance : Instance) : list text :=
  flat_map ephemeral_block (get_list (BlockDeviceMappings instance)).

Definition tags_lines (instance : Instance) : list text :=
  if truthy_list (inst_Tags instance)
  then [nl ++ _format_tags (get_list (inst_Tags instance)) 2] else [].

Definition trailer_lines : list text :=
  [nl ++ lit "  # Set volume_tags if you want different tags for volumes";
   lit "  # volume_tags = {}";
   nl ++ lit "  lifecycle {";
   lit "    # Prevent accidental instance replacement";
   lit "    # ignore_changes = [ami, user_data]";
   lit "  }";
   lit "}"].

Definition instance_resource_lines (self : EC2ToTerraform) (instance : Instance)
  : Exc (list text) :=
  sg <- sg_lines instance ;;
  Ok (head_lines (resource_name self instance) instance ++
      key_lines instance ++ az_lines instance ++ subnet_lines instance ++
      sg ++ private_ip_lines instance ++ iam_lines instance ++
      src_dst_lines instance ++ monitoring_lines instance ++
      ebs_optimized_lines instance ++ termination_lines instance ++
      tenancy_lines instance ++ placement_group_lines instance ++
      host_lines instance ++ credit_lines instance ++ metadata_lines instance ++
      enclave_lines instance ++ capacity_lines instance ++
      hibernation_lines instance ++ user_data_lines instance ++
      root_block_lines (volumes_data self) instance ++
      ebs_block_lines (volumes_data self) instance ++
      ephemeral_lines instance ++ tags_lines instance ++ trailer_lines).

Definition _generate_instance_resource (self : EC2ToTerraform) (instance : Instance)
  : Exc text :=
  exc_map (join nl) (instance_resource_lines self instance).

(** ** [_generate_elastic_ip_resources] *)

Definition eip_block (self : EC2ToTerraform) (instance : Instance) (i : Z)
    (eip : Address) : list text :=
  let rn := resource_name self instance in
  let eip_name := if 0 <? i then rn ++ lit "_eip_" ++ z_str i else rn ++ lit "_eip" in
  [lit "# Elastic IP for " ++ instance_name self instance;
   lit "resource " ++ quoted (lit "aws_eip") ++ lit " " ++ quoted eip_name ++ lit " {";
   lit "  domain = " ++ quoted (lit "vpc")] ++
  (if truthy_list (eip_Tags eip)
   then [nl ++ _format_tags (get_list (eip_Tags eip)) 2] else []) ++
  [lit "}";
   [];
   lit "resource " ++ quoted (lit "aws_eip_association") ++ lit " " ++
     quoted (eip_name ++ lit "_assoc") ++ lit " {";
   lit "  instance_id   = aws_instance." ++ rn ++ lit ".id";
   lit "  allocation_id = aws_eip." ++ eip_name ++ lit ".id";
   lit "}"].

(** The [for i, eip in enumerate(...)] loop. *)
Fixpoint eip_loop (self : EC2ToTerraform) (instance : Instance) (i : Z)
    (eips : list Address) : list text :=
  match eips with
  | [] => []
  | eip :: rest => eip_block self instance i eip ++ eip_loop self instance (i + 1) rest
  end.

Definition _generate_elastic_ip_resources (self : EC2ToTerraform)
    (instance : Instance) : text :=
  match elastic_ips_data self with
  | [] => []
  | eips => join nl (eip_loop self instance 0 eips)
  end.

(** ** [_generate_network_interfaces] *)

(** [x.get('Attachment', {}).get('DeviceIndex', d)] *)
Definition device_index_or (d : Z) (eni : NetworkInterface) : Z :=
  match eni_Attachment eni with
  | Some a => match DeviceIndex a with Some k => k | None => d end
  | None => d
  end.

Definition sort_key (eni : NetworkInterface) : Z := device_index_or 999 eni.

(** [sorted(enis, key=sort_key)]: a stable sort, each element inserted after
    the ones of equal key that precede it. *)
Fixpoint insert_by_key (x : NetworkInterface) (l : list NetworkInterface)
  : list NetworkInterface :=
  match l with
  | [] => [x]
  | y :: ys => if sort_key x <? sort_key y then x :: l else y :: insert_by_key x ys
  end.

Definition sorted_enis (l : list NetworkInterface) : list NetworkInterface :=
  fold_left (fun acc x => insert_by_key x acc) l [].

Definition eni_block (rn : text) (eni : NetworkInterface) : list text :=
  let device_index := device_index_or 0 eni in
  let eni_name := rn ++ lit "_eni_" ++ z_str device_index in
  [lit "# Additional Network Interface (device index " ++ z_str device_index ++ lit ")";
   lit "resource " ++ quoted (lit "aws_network_interface") ++ lit " " ++
     quoted eni_name ++ lit " {";
   lit "  subnet_id       = " ++ quoted (get_or [] (eni_SubnetId eni))] ++
  (if truthy_list (eni_Groups eni)
   then [lit "  security_groups = " ++
           json_dumps (map GroupId (get_list (eni_Groups eni)))]
   else []) ++
  (if truthy_list (PrivateIpAddresses eni)
   then match map eni_PrivateIpAddress (get_list (PrivateIpAddresses eni)) with
        | [] => []
        | private_ips => [lit "  private_ips     = " ++ json_dumps private_ips]
        end
   else []) ++
  (if negb (match eni_SourceDestCheck eni with Some b => b | None => true end)
   then [lit "  source_dest_check = false"] else []) ++
  (if truthy_list (TagSet eni)
   then [nl ++ _format_tags (get_list (TagSet eni)) 2] else []) ++
  [lit "}";
   [];
   lit "resource " ++ quoted (lit "aws_network_interface_attachment") ++ lit " " ++
     quoted (eni_name ++ lit "_attach") ++ lit " {";
   lit "  instance_id          = aws_instance." ++ rn ++ lit ".id";
   lit "  network_interface_id = aws_network_interface." ++ eni_name ++ lit ".id";
   lit "  device_index         = " ++ z_str device_index;
   lit "}";
   []].

Definition _generate_network_interfaces (self : EC2ToTerraform)
    (instance : Instance) : text :=
  if Nat.leb (List.length (network_interfaces_data self)) 1 then []
  else
    let rn := resource_name self instance in
    let lines := flat_map (eni_block rn) (tl (sorted_enis (network_interfaces_data self))) in
    join nl lines.

(** ** Header, fixed sections and [generate_terraform] *)

(** [now] is [datetime.utcnow().isoformat()]. *)
Definition _generate_header (now : text) (self : EC2ToTerraform)
    (instance : Instance) : text :=
  join nl
    [lit "# Terraform configuration generated from EC2 instance";
     lit "# Generated: " ++ now ++ lit "Z";
     lit "# Source Instance: " ++ instance_id self;
     lit "# Instance Name: " ++ instance_name self instance;
     lit "# Region: " ++ region self;
     lit "#";
     lit "# NOTE: This is a generated configuration. Review and customize as needed.";
     lit "# Some values may need to be parameterized or adjusted for your use case."].

Definition _generate_ebs_volumes : text := [].
Definition _generate_volume_attachments : text := [].

Definition _generate_variables_recommendation : text :=
  join nl
    [lit "# Recommendations:";
     lit "# 1. Consider parameterizing values like AMI ID, instance type, etc. using variables";
     lit "# 2. Use data sources to look up existing resources (VPCs, subnets, security groups)";
     lit "# 3. Review all settings and adjust for your specific requirements";
     lit "# 4. Test this configuration in a non-production environment first";
     lit "# 5. Consider using remote state and proper state management";
     lit "#";
     lit "# Example variables you might want to create:";
     lit "# - var.instance_type";
     lit "# - var.ami_id";
     lit "# - var.key_name";
     lit "# - var.subnet_id";
     lit "# - var.security_group_ids"].

Definition if_nonempty (t : text) : list text := match t with [] => [] | _ => [t] end.

(** The [tf_config] list of [generate_terraform] after its header. *)
Definition config_body (self : EC2ToTerraform) (instance : Instance)
  : Exc (list text) :=
  inst <- _generate_instance_resource self instance ;;
  Ok ([inst] ++ if_nonempty _generate_ebs_volumes ++
      if_nonempty _generate_volume_attachments ++
      if_nonempty (_generate_elastic_ip_resources self instance) ++
      if_nonempty (_generate_network_interfaces self instance) ++
      [_generate_variables_recommendation]).

(** [full_config = '\n\n'.join(tf_config)] *)
Definition full_config (now : text) (self : EC2ToTerraform) (instance : Instance)
  : Exc text :=
  body <- config_body self instance ;;
  Ok (join (nl ++ nl) (_generate_header now self instance :: body)).

(** ** The sink

    The file system maps paths to contents.  [open(path, 'w')] creates or
    truncates the file; [f.write(..)] may persist a prefix of the data before
    raising ([OSError], e.g. a full disk).  Which of these happens is decided
    by the environment, given as an [io_fault]; [msg] is the text of the
    exception. *)

Definition filesystem := text -> option text.

Definition fs_update (fs : filesystem) (p : text) (c : option text) : filesystem :=
  fun q => if text_eqb q p then c else fs q.

Inductive io_fault :=
| NoFault
| OpenFails (msg : text)
| WriteFailsAfter (n : nat) (msg : text).

(** The [with open(output_file, 'w', encoding='utf-8') as f: f.write(data)]
    statement: the new file system and the exception raised, if any. *)
Definition write_file (fs : filesystem) (path data : text) (fault : io_fault)
  : filesystem * option text :=
  match fault with
  | NoFault => (fs_update fs path (Some data), None)
  | OpenFails msg => (fs, Some msg)
  | WriteFailsAfter n msg => (fs_update fs path (Some (firstn n data)), Some msg)
  end.

(** How an invocation of [generate_terraform] ends. *)
Inductive run_result :=
| Returned (config : text)
| Exited (code : Z)
| Raised (e : py_exc).

Record run := {
  run_result_of : run_result;
  run_fs : filesystem;
  run_stderr : list text
}.

Definition generate_terraform (now : text) (self : EC2ToTerraform)
    (output_file : option text) (fs : filesystem) (fault : io_fault) : run :=
  match instance_data self with
  | None =>
      {| run_result_of := Exited 1; run_fs := fs;
         run_stderr := [lit "Error: No instance data available. Call describe_instance() first."] |}
  | Some instance =>
      match full_config now self instance with
      | Raise e => {| run_result_of := Raised e; run_fs := fs; run_stderr := [] |}
      | Ok config =>
          match output_file with
          | Some ((_ :: _) as path) =>
              let (fs', err) := write_file fs path config fault in
              match err with
              | None => {| run_result_of := Returned config; run_fs := fs'; run_stderr := [] |}
              | Some msg =>
                  {| run_result_of := Exited 1; run_fs := fs';
                     run_stderr := [lit "Error writing to file: " ++ msg] |}
              end
          | _ => {| run_result_of := Returned config; run_fs := fs; run_stderr := [] |}
          end
      end
  end.

End Emitter.

(** ** Observations on the emitted lines *)

(** The lines that follow each occurrence of the line [m]: for
    [m = ebs_marker], the [device_name] lines of the [ebs_block_device]
    blocks, in output order. *)
Fixpoint after_marker (m : text) (l : list text) : list text :=
  match l with
  | [] => []
  | x :: r =>
      if text_eqb x m
      then match r with [] => [] | y :: r' => y :: after_marker m r' end
      else after_marker m r
  end.

Definition all_markers : list text := [root_marker; ebs_marker; decoded_header].

(** No line of [l] is one of the lines [ms]. *)
Definition avoids (ms : list text) (l : list text) : Prop :=
  Forall (fun x => ~ In x ms) l.

Definition lifecycle_marker : text := nl ++ lit "  lifecycle {".

(** An instance description where only the image and the type may be set. *)
Definition bare_instance (ami type_ : option text) : Instance := {|
  ImageId := ami; InstanceType := type_; KeyName := None; inst_Placement := None;
  SubnetId := None; SecurityGroups := None; NetworkInterfaces := None;
  PrivateIpAddress := None; inst_IamInstanceProfile := None;
  SourceDestCheckAttribute := None; inst_Monitoring := None; EbsOptimized := None;
  DisableApiTerminationAttribute := None; inst_CreditSpecification := None;
  inst_MetadataOptions := None; inst_EnclaveOptions := None;
  inst_CapacityReservationSpecification := None; inst_HibernationOptions := None;
  UserDataAttribute := None; RootDeviceName := None; BlockDeviceMappings := None;
  inst_Tags := None |}.

(** A bare instance description that also names its root device [root] and
    lists one block-device mapping [rbd], the root entry. *)
Definition rooted_instance (ami type_ : option text) (root : text)
    (rbd : BlockDeviceMapping) : Instance := {|
  ImageId := ami; InstanceType := type_; KeyName := None; inst_Placement := None;
  SubnetId := None; SecurityGroups := None; NetworkInterfaces := None;
  PrivateIpAddress := None; inst_IamInstanceProfile := None;
  SourceDestCheckAttribute := None; inst_Monitoring := None; EbsOptimized := None;
  DisableApiTerminationAttribute := None; inst_CreditSpecification := None;
  inst_MetadataOptions := None; inst_EnclaveOptions := None;
  inst_CapacityReservationSpecification := None; inst_HibernationOptions := None;
  UserDataAttribute := None; RootDeviceName := Some root;
  BlockDeviceMappings := Some [rbd]; inst_Tags := None |}.

(** The attachment index of a network interface, when it has one. *)
Definition attachment_index (eni : NetworkInterface) : option Z :=
  match eni_Attachment eni with Some a => DeviceIndex a | None => None end.

(** The lines of a root block after its opening line. *)
Definition root_block_rest (vols : list Volume) (root_volume : Ebs) : list text :=
  let volume_details := find_volume vols (ebs_VolumeId root_volume) in
  (match volume_details with Some v => volume_detail_lines v | None => [] end) ++
  [delete_line root_volume] ++
  (match volume_details with Some v => volume_tag_lines v | None => [] end) ++
  [lit "  }"].

(** The primary block split around the user-data and storage parts. *)
Definition front_lines (rn : text) (sg : list text) (instance : Instance)
  : list text :=
  head_lines rn instance ++
  key_lines instance ++ az_lines instance ++ subnet_lines instance ++
  sg ++ private_ip_lines instance ++ iam_lines instance ++
  src_dst_lines instance ++ monitoring_lines instance ++
  ebs_optimized_lines instance ++ termination_lines instance ++
  tenancy_lines instance ++ placement_group_lines instance ++
  host_lines instance ++ credit_lines instance ++ metadata_lines instance ++
  enclave_lines instance ++ capacity_lines instance ++
  hibernation_lines instance.

Definition back_lines (instance : Instance) : list text :=
  ephemeral_lines instance ++ tags_lines instance ++ trailer_lines.

(** ** Sample inputs *)

(** An instance with the given interfaces, user data and storage fields,
    launched from [ami-0123] as a [t3.micro] with no other attribute. *)
Definition mk_instance (nis : option (list InstanceNetworkInterface))
    (ud : option TextAttribute) (root : option text)
    (bdms : option (list BlockDeviceMapping)) : Instance := {|
  ImageId := Some (lit "ami-0123"); InstanceType := Some (lit "t3.micro");
  KeyName := None; inst_Placement := None;
  SubnetId := None; SecurityGroups := None; NetworkInterfaces := nis;
  PrivateIpAddress := None; inst_IamInstanceProfile := None;
  SourceDestCheckAttribute := None; inst_Monitoring := None; EbsOptimized := None;
  DisableApiTerminationAttribute := None; inst_CreditSpecification := None;
  inst_MetadataOptions := None; inst_EnclaveOptions := None;
  inst_CapacityReservationSpecification := None; inst_HibernationOptions := None;
  UserDataAttribute := ud; RootDeviceName := root; BlockDeviceMappings := bdms;
  inst_Tags := None |}.

(** The converter state after [describe_instance] of [i-0abc]. *)
Definition mk_self (inst : option Instance) (enis : list NetworkInterface)
  : EC2ToTerraform := {|
  region := lit "us-east-1"; instance_id := lit "i-0abc";
  instance_data := inst; volumes_data := [];
  network_interfaces_data := enis; elastic_ips_data := [] |}.

Definition ebs_mapping (dev vol : string) : BlockDeviceMapping := {|
  DeviceName := lit dev;
  bdm_Ebs := Some {| ebs_VolumeId := Some (lit vol);
                     ebs_DeleteOnTermination := Some true |};
  VirtualName := None |}.

Definition ephemeral_mapping (dev name : string) : BlockDeviceMapping := {|
  DeviceName := lit dev; bdm_Ebs := None; VirtualName := Some (lit name) |}.

Definition storage_instance : Instance :=
  mk_instance None None (Some (lit "/dev/xvda"))
    (Some [ephemeral_mapping "/dev/sdb" "ephemeral0";
           ebs_mapping "/dev/xvda" "vol-1"; ebs_mapping "/dev/sdf" "vol-2"]).

Definition lines_of (r : Exc (list text)) : list text :=
  match r with Ok l => l | Raise _ => [] end.

Definition storage_lines : list text :=
  lines_of (instance_resource_lines ascii_ucd (fun _ => None)
              (mk_self (Some storage_instance) []) storage_instance).

Definition user_data_instance (v : string) : Instance :=
  mk_instance None (Some {| tattr_Value := Some (lit v) |}) None None.

(** A decoder that knows one payload, [echo hi] on two lines. *)
Definition sample_b64decode (v : text) : option text :=
  if text_eqb v (lit "ZWNobyBoaQpleGl0") then Some (lit "echo hi" ++ nl ++ lit "exit")
  else None.

Definition sample_bare : Instance :=
  bare_instance (Some (lit "ami-0123")) (Some (lit "t3.micro")).

(** The order of [sorted(enis, key=...)] on interfaces. *)
Definition key_le (a b : NetworkInterface) : Prop := sort_key a <= sort_key b.

Definition mk_eni (k : Z) (subnet : string) : NetworkInterface := {|
  eni_Attachment := Some {| DeviceIndex := Some k |};
  eni_SubnetId := Some (lit subnet); eni_Groups := None;
  PrivateIpAddresses := None; eni_SourceDestCheck := None; TagSet := None |}.

(** A file system holding an earlier [main.tf]. *)
Definition old_fs : filesystem :=
  fun q => if text_eqb q (lit "main.tf") then Some (lit "old configuration") else None.

Definition sample_now : text := lit "2026-01-01T00:00:00".

Definition sample_config : text :=
  match full_config ascii_ucd (fun _ => None) sample_now
          (mk_self (Some sample_bare) []) sample_bare with
  | Ok c => c
  | Raise _ => []
  end.

(** The disk fills up before the first byte of the configuration is stored. *)
Definition failed_write_run : run :=
  generate_terraform ascii_ucd (fun _ => None) sample_now
    (mk_self (Some sample_bare) []) (Some (lit "main.tf")) old_fs
    (WriteFailsAfter 0 (lit "[Errno 28] No space left on device")).

(** ** Fetching details: [_get_volume_details] and [_get_instance_attributes]

    A boto3 call either returns its response or raises [ClientError]; the
    text of a [ClientError] is [str(e)].  The other exceptions of boto3 are
    not caught by these methods and are not modelled. *)

Inductive api_result (A : Type) := Response (a : A) | ClientError (e : text).
Arguments Response {A} a.
Arguments ClientError {A} e.

(** [bd.get('Ebs', {}).get('VolumeId')] *)
Definition volume_id_of (bd : BlockDeviceMapping) : option text :=
  match bdm_Ebs bd with Some e => ebs_VolumeId e | None => None end.

(** The loop of [_get_volume_details]: the volumes appended to
    [self.volumes_data] and the warnings printed on stderr. *)
Fixpoint volume_loop (describe_volumes : text -> api_result (list Volume))
    (bds : list BlockDeviceMapping) (volumes : list Volume) (stderr : list text)
  : list Volume * list text :=
  match bds with
  | [] => (volumes, stderr)
  | bd :: rest =>
      match volume_id_of bd with
      | Some ((_ :: _) as volume_id) =>
          match describe_volumes volume_id with
          | Response (v :: _) => volume_loop describe_volumes rest (volumes ++ [v]) stderr
          | Response [] => volume_loop describe_volumes rest volumes stderr
          | ClientError e =>
              volume_loop describe_volumes rest volumes
                (stderr ++ [lit "Warning: Could not retrieve volume " ++ volume_id ++
                            lit ": " ++ e])
          end
      | _ => volume_loop describe_volumes rest volumes stderr
      end
  end.

Definition with_volumes (self : EC2ToTerraform) (vols : list Volume) : EC2ToTerraform := {|
  region := region self; instance_id := instance_id self;
  instance_data := instance_data self; volumes_data := vols;
  network_interfaces_data := network_interfaces_data self;
  elastic_ips_data := elastic_ips_data self |}.

(** [_get_volume_details], with [instance = self.instance_data] and
    [describe_volumes v] the answer of [describe_volumes(VolumeIds=[v])]
    (its [Volumes] list).  Returns the new state and the stderr lines. *)
Definition _get_volume_details (describe_volumes : text -> api_result (list Volume))
    (self : EC2ToTerraform) (instance : Instance) : EC2ToTerraform * list text :=
  let (vols, err) :=
    volume_loop describe_volumes (get_list (BlockDeviceMappings instance))
      (volumes_data self) [] in
  (with_volumes self vols, err).

(** The response of [describe_instance_attribute]: one of its keys is set,
    depending on the attribute asked for. *)
Record InstanceAttribute := {
  UserData : option TextAttribute;
  SourceDestCheck : option BoolAttribute;
  DisableApiTermination : option BoolAttribute
}.

Definition with_attributes (i : Instance) (ud : option TextAttribute)
    (sdc dat : option BoolAttribute) : Instance := {|
  ImageId := ImageId i; InstanceType := InstanceType i; KeyName := KeyName i;
  inst_Placement := inst_Placement i; SubnetId := SubnetId i;
  SecurityGroups := SecurityGroups i; NetworkInterfaces := NetworkInterfaces i;
  PrivateIpAddress := PrivateIpAddress i;
  inst_IamInstanceProfile := inst_IamInstanceProfile i;
  SourceDestCheckAttribute := sdc; inst_Monitoring := inst_Monitoring i;
  EbsOptimized := EbsOptimized i; DisableApiTerminationAttribute := dat;
  inst_CreditSpecification := inst_CreditSpecification i;
  inst_MetadataOptions := inst_MetadataOptions i;
  inst_EnclaveOptions := inst_EnclaveOptions i;
  inst_CapacityReservationSpecification := inst_CapacityReservationSpecification i;
  inst_HibernationOptions := inst_HibernationOptions i;
  UserDataAttribute := ud; RootDeviceName := RootDeviceName i;
  BlockDeviceMappings := BlockDeviceMappings i; inst_Tags := inst_Tags i |}.

(** [response.get(key, {})] *)
Definition text_attr_or_empty (o : option TextAttribute) : TextAttribute :=
  match o with Some a => a | None => {| tattr_Value := None |} end.
Definition bool_attr_or_empty (o : option BoolAttribute) : BoolAttribute :=
  match o with Some a => a | None => {| battr_Value := None |} end.

(** [_get_instance_attributes] on [instance = self.instance_data];
    [describe_instance_attribute a] is the answer for the attribute [a] of
    [self.instance_id].  The three calls run in order inside one [try]: the
    first [ClientError] ends the method with one warning. *)
Definition _get_instance_attributes
    (describe_instance_attribute : text -> api_result InstanceAttribute)
    (instance : Instance) : Instance * list text :=
  let warn e := [lit "Warning: Could not retrieve some instance attributes: " ++ e] in
  match describe_instance_attribute (lit "userData") with
  | ClientError e => (instance, warn e)
  | Response user_data_response =>
      let i1 := with_attributes instance
                  (Some (text_attr_or_empty (UserData user_data_response)))
                  (SourceDestCheckAttribute instance)
                  (DisableApiTerminationAttribute instance) in
      match describe_instance_attribute (lit "sourceDestCheck") with
      | ClientError e => (i1, warn e)
      | Response src_dst_response =>
          let i2 := with_attributes i1 (UserDataAttribute i1)
                      (Some (bool_attr_or_empty (SourceDestCheck src_dst_response)))
                      (DisableApiTerminationAttribute i1) in
          match describe_instance_attribute (lit "disableApiTermination") with
          | ClientError e => (i2, warn e)
          | Response termination_response =>
              (with_attributes i2 (UserDataAttribute i2) (SourceDestCheckAttribute i2)
                 (Some (bool_attr_or_empty (DisableApiTermination termination_response))),
               [])
          end
      end
  end.

Definition with_eips (self : EC2ToTerraform) (eips : list Address) : EC2ToTerraform := {|
  region := region self; instance_id := instance_id self;
  instance_data := instance_data self; volumes_data := volumes_data self;
  network_interfaces_data := network_interfaces_data self;
  elastic_ips_data := eips |}.

(** [_get_elastic_ip_details]; [describe_addresses id] is the response of
    [describe_addresses] filtered on [instance-id = id] (its [Addresses]
    key, when present).  Returns the new state and the stderr lines. *)
Definition _get_elastic_ip_details
    (describe_addresses : text -> api_result (option (list Address)))
    (self : EC2ToTerraform) : EC2ToTerraform * list text :=
  match describe_addresses (instance_id self) with
  | Response addresses => (with_eips self (get_list addresses), [])
  | ClientError e => (self, [lit "Warning: Could not retrieve Elastic IPs: " ++ e])
  end.

(** ** Reading the emitted lines back *)

(** [line.startswith(p)] *)
Fixpoint starts_with (p l : text) : bool :=
  match p, l with
  | [], _ => true
  | x :: p', y :: l' => Z.eqb x y && starts_with p' l'
  | _ :: _, [] => false
  end.

Definition eip_header_prefix : text :=
  lit "resource " ++ quoted (lit "aws_eip") ++ lit " " ++ dq.

(** The value of a string of decimal digits, least significant first. *)
Fixpoint digits_value (ds : text) : Z :=
  match ds with
  | [] => 0
  | d :: ds' => (d - 48) + 10 * digits_value ds'
  end.

Definition printable (c : Z) : Prop := 32 <= c <= 126.

(** An instance whose tags are [pre] followed by two [Name] tags with the
    given values. *)
Definition with_name_tags (pre : list Tag) (v1 v2 : option text) : Instance :=
  let i := mk_instance None None None None in
  {| ImageId := ImageId i; InstanceType := InstanceType i; KeyName := None;
     inst_Placement := None; SubnetId := None; SecurityGroups := None;
     NetworkInterfaces := None; PrivateIpAddress := None;
     inst_IamInstanceProfile := None; SourceDestCheckAttribute := None;
     inst_Monitoring := None; EbsOptimized := None;
     DisableApiTerminationAttribute := None; inst_CreditSpecification := None;
     inst_MetadataOptions := None; inst_EnclaveOptions := None;
     inst_CapacityReservationSpecification := None; inst_HibernationOptions := None;
     UserDataAttribute := None; RootDeviceName := None; BlockDeviceMappings := None;
     inst_Tags := Some (pre ++ [{| tag_Key := Some (lit "Name"); tag_Value := v1 |};
                                {| tag_Key := Some (lit "Name"); tag_Value := v2 |}]) |}.

Definition with_groups (i : Instance) (sgs : option (list Group)) : Instance := {|
  ImageId := ImageId i; InstanceType := InstanceType i; KeyName := KeyName i;
  inst_Placement := inst_Placement i; SubnetId := SubnetId i;
  SecurityGroups := sgs; NetworkInterfaces := NetworkInterfaces i;
  PrivateIpAddress := PrivateIpAddress i;
  inst_IamInstanceProfile := inst_IamInstanceProfile i;
  SourceDestCheckAttribute := SourceDestCheckAttribute i; inst_Monitoring := inst_Monitoring i;
  EbsOptimized := EbsOptimized i;
  DisableApiTerminationAttribute := DisableApiTerminationAttribute i;
  inst_CreditSpecification := inst_CreditSpecification i;
  inst_MetadataOptions := inst_MetadataOptions i;
  inst_EnclaveOptions := inst_EnclaveOptions i;
  inst_CapacityReservationSpecification := inst_CapacityReservationSpecification i;
  inst_HibernationOptions := inst_HibernationOptions i;
  UserDataAttribute := UserDataAttribute i; RootDeviceName := RootDeviceName i;
  BlockDeviceMappings := BlockDeviceMappings i; inst_Tags := inst_Tags i |}.

(** An instance with the given security-group and interface fields. *)
Definition sg_instance (sgs : option (list Group))
    (nis : option (list InstanceNetworkInterface)) : Instance :=
  with_groups (mk_instance nis None None None) sgs.

(** The [resource "aws_eip"] line of the [i]-th EIP block. *)
Definition eip_header_of (rn : text) (i : Z) : text :=
  lit "resource " ++ quoted (lit "aws_eip") ++ lit " " ++
  quoted (if 0 <? i then rn ++ lit "_eip_" ++ z_str i else rn ++ lit "_eip") ++ lit " {".

(** A [gp3] volume as [describe_volumes] returns it. *)
Definition gp3_volume (volume_id : text) : Volume := {|
  vol_VolumeId := volume_id; VolumeType := Some (lit "gp3"); Size := Some 8;
  Iops := Some 3000; Throughput := Some 125; Encrypted := Some true;
  KmsKeyId := None; vol_Tags := None |}.

(** [describe_volumes] of an account where [vol-1] is not readable. *)
Definition sample_describe_volumes (volume_id : text) : api_result (list Volume) :=
  if text_eqb volume_id (lit "vol-1") then ClientError (lit "UnauthorizedOperation")
  else Response [gp3_volume volume_id].

(** [describe_instance_attribute] of a role that may not read
    [disableApiTermination]. *)
Definition sample_describe_attribute (attribute : text) : api_result InstanceAttribute :=
  if text_eqb attribute (lit "disableApiTermination")
  then ClientError (lit "UnauthorizedOperation")
  else Response {| UserData := None;
                   SourceDestCheck := Some {| battr_Value := Some false |};
                   DisableApiTermination := None |}.

(** A network interface with no [Attachment]. *)
Definition unattached_eni (subnet : string) : NetworkInterface := {|
  eni_Attachment := None;
  eni_SubnetId := Some (lit subnet); eni_Groups := None;
  PrivateIpAddresses := None; eni_SourceDestCheck := None; TagSet := None |}.

(** [i] with the instance profile [p]. *)
Definition with_profile (i : Instance) (p : option IamInstanceProfile) : Instance := {|
  ImageId := ImageId i; InstanceType := InstanceType i; KeyName := KeyName i;
  inst_Placement := inst_Placement i; SubnetId := SubnetId i;
  SecurityGroups := SecurityGroups i; NetworkInterfaces := NetworkInterfaces i;
  PrivateIpAddress := PrivateIpAddress i; inst_IamInstanceProfile := p;
  SourceDestCheckAttribute := SourceDestCheckAttribute i; inst_Monitoring := inst_Monitoring i;
  EbsOptimized := EbsOptimized i;
  DisableApiTerminationAttribute := DisableApiTerminationAttribute i;
  inst_CreditSpecification := inst_CreditSpecification i;
  inst_MetadataOptions := inst_MetadataOptions i;
  inst_EnclaveOptions := inst_EnclaveOptions i;
  inst_CapacityReservationSpecification := inst_CapacityReservationSpecification i;
  inst_HibernationOptions := inst_HibernationOptions i;
  UserDataAttribute := UserDataAttribute i; RootDeviceName := RootDeviceName i;
  BlockDeviceMappings := BlockDeviceMappings i; inst_Tags := inst_Tags i |}.

(** An instance profile as [describe_instances] returns it. *)
Definition sample_profile : IamInstanceProfile :=
  {| iam_Arn := Some (lit "arn:aws:iam::123456789012:instance-profile/web-role") |}.

(** A tag whose value ends in a backslash. *)
Definition backslash_tag : Tag :=
  {| tag_Key := Some (lit "path"); tag_Value := Some (lit "C:" ++ [92]) |}.

(** [describe_addresses] of a role that may not call it. *)
Definition sample_describe_addresses (instance_id : text)
  : api_result (option (list Address)) :=
  ClientError (lit "UnauthorizedOperation").

(** * Properties *)

(** ** The sanitizer *)

(** Case analysis on the boolean comparisons of [Z] in the goal or in the
    hypotheses, closing the arithmetic cases. *)
Ltac zcase t :=
  lazymatch t with
  | Z.eqb ?x ?y => destruct (Z.eqb_spec x y)
  | Z.leb ?x ?y => destruct (Z.leb_spec x y)
  | Z.ltb ?x ?y => destruct (Z.ltb_spec x y)
  end.

Ltac zbool :=
  repeat (match goal with
          | |- context [?t] => zcase t
          | _ : context [?t] |- _ => zcase t
          end);
  simpl in *; try lia; try reflexivity; try discriminate.

(** A character is kept by the replacement step of the ASCII database. *)
Definition ascii_kept (c : Z) : bool := ascii_isalnum c || Z.eqb c 95.

Lemma sanitize_char_kept (c : Z) : ascii_kept (sanitize_char ascii_ucd c) = true.
Proof.
  unfold sanitize_char; simpl.
  destruct (ascii_isalnum c || (c =? 95)) eqn:E; [exact E | reflexivity].
Qed.

Lemma kept_lower (c : Z) : ascii_kept c = true -> ascii_kept (ascii_lower c) = true.
Proof. unfold ascii_kept, ascii_isalnum, ascii_isdigit, ascii_isalpha, ascii_lower; zbool. Qed.

Lemma lower_idem (c : Z) : ascii_lower (ascii_lower c) = ascii_lower c.
Proof. unfold ascii_lower; zbool. Qed.

Lemma digit_lower (c : Z) : ascii_isdigit (ascii_lower c) = ascii_isdigit c.
Proof. unfold ascii_isdigit, ascii_lower; zbool. Qed.

Lemma sanitize_char_kept_id (c : Z) :
  ascii_kept c = true -> sanitize_char ascii_ucd c = c.
Proof. unfold sanitize_char, ascii_kept; simpl; intros ->; reflexivity. Qed.

Lemma str_lower_ascii (s : text) : str_lower ascii_ucd s = map ascii_lower s.
Proof. induction s as [|c s IH]; simpl; [reflexivity | now rewrite IH]. Qed.

Lemma sanitize_ascii_ucd_idem (s : text) :
  _sanitize_resource_name ascii_ucd (_sanitize_resource_name ascii_ucd s) =
  _sanitize_resource_name ascii_ucd s.
Proof.
  destruct s as [|c s]; [reflexivity|].
  set (r := map (sanitize_char ascii_ucd) (c :: s)).
  set (r' := if ascii_isdigit (sanitize_char ascii_ucd c)
             then 95 :: r else r).
  assert (Hr : Forall (fun x => ascii_kept x = true) r').
  { assert (Forall (fun x => ascii_kept x = true) r).
    { unfold r; apply Forall_forall; intros x Hx; apply in_map_iff in Hx.
      destruct Hx as [y [<- _]]; apply sanitize_char_kept. }
    unfold r'; destruct (ascii_isdigit _); [constructor; [reflexivity|]|]; assumption. }
  assert (Hhd : exists x r0, r' = x :: r0 /\ ascii_isdigit x = false).
  { unfold r', r; simpl.
    destruct (ascii_isdigit (sanitize_char ascii_ucd c)) eqn:Ed.
    - eexists _, _; split; [reflexivity|reflexivity].
    - eexists _, _; split; [reflexivity|exact Ed]. }
  assert (Hs : _sanitize_resource_name ascii_ucd (c :: s) = map ascii_lower r').
  { unfold _sanitize_resource_name; fold r.
    change (map (sanitize_char ascii_ucd) (c :: s)) with r.
    destruct Hhd as [x [r0 [Hx _]]].
    unfold r' in Hx |- *; unfold r at 1; simpl map at 1; cbv beta iota.
    destruct (uc_isdigit ascii_ucd (sanitize_char ascii_ucd c)) eqn:E;
      simpl in E |- *; rewrite ?E;
      rewrite <- str_lower_ascii; fold r; reflexivity. }
  rewrite Hs.
  destruct Hhd as [x [r0 [Hx Hdx]]]. rewrite Hx in Hr |- *.
  assert (Hmap : map (sanitize_char ascii_ucd) (map ascii_lower (x :: r0)) =
                 map ascii_lower (x :: r0)).
  { transitivity (map id (map ascii_lower (x :: r0))); [|apply map_id].
    apply map_ext_Forall; rewrite Forall_map.
    eapply Forall_impl; [|exact Hr]; intros y Hy.
    apply sanitize_char_kept_id, kept_lower, Hy. }
  unfold _sanitize_resource_name; rewrite Hmap; simpl uc_isdigit.
  change (map ascii_lower (x :: r0)) with (ascii_lower x :: map ascii_lower r0).
  cbv iota; rewrite digit_lower, Hdx, str_lower_ascii.
  simpl; rewrite lower_idem, map_map; f_equal.
  apply map_ext, lower_idem.
Qed.

Lemma kept_ascii (c : Z) : ascii_kept c = true -> 0 <= c < 128.
Proof. unfold ascii_kept, ascii_isalnum, ascii_isdigit, ascii_isalpha; zbool. Qed.

Lemma sanitize_char_agree (u : UCD) (c : Z) :
  ascii_agree u -> 0 <= c < 128 -> sanitize_char u c = sanitize_char ascii_ucd c.
Proof.
  intros Hu Hc; unfold sanitize_char; destruct (Hu c Hc) as [-> _]; reflexivity.
Qed.

Lemma str_lower_agree (u : UCD) (s : text) :
  ascii_agree u -> is_ascii s -> str_lower u s = str_lower ascii_ucd s.
Proof.
  intros Hu Hs; induction Hs as [|c s Hc Hs IH]; [reflexivity|].
  simpl; destruct (Hu c Hc) as [_ [_ ->]]; now rewrite IH.
Qed.

(** On ASCII input the sanitizer only consults the ASCII part of the
    character database. *)
Lemma sanitize_agree (u : UCD) (s : text) :
  ascii_agree u -> is_ascii s ->
  _sanitize_resource_name u s = _sanitize_resource_name ascii_ucd s.
Proof.
  intros Hu Hs.
  assert (Hm : map (sanitize_char u) s = map (sanitize_char ascii_ucd) s).
  { apply map_ext_Forall; eapply Forall_impl; [|exact Hs].
    intros c Hc; apply sanitize_char_agree; assumption. }
  assert (Ha : is_ascii (map (sanitize_char ascii_ucd) s)).
  { unfold is_ascii; rewrite Forall_map; apply Forall_forall; intros c _.
    apply kept_ascii, sanitize_char_kept. }
  unfold _sanitize_resource_name; rewrite Hm.
  destruct (map (sanitize_char ascii_ucd) s) as [|c r] eqn:E; [reflexivity|].
  inversion Ha as [|? ? Hc Hr]; subst.
  destruct (Hu c Hc) as [_ [Hd _]]; rewrite Hd; simpl uc_isdigit.
  destruct (ascii_isdigit c);
    (apply str_lower_agree; [assumption|]); repeat constructor; try lia; assumption.
Qed.

Lemma sanitize_ascii_output (s : text) :
  is_ascii (_sanitize_resource_name ascii_ucd s).
Proof.
  destruct s as [|c s]; [repeat constructor; lia|].
  unfold _sanitize_resource_name.
  assert (Hk : Forall (fun x => ascii_kept x = true) (map (sanitize_char ascii_ucd) (c :: s))).
  { apply Forall_forall; intros x Hx; apply in_map_iff in Hx.
    destruct Hx as [y [<- _]]; apply sanitize_char_kept. }
  assert (Hk' : forall r, Forall (fun x => ascii_kept x = true) r ->
                is_ascii (str_lower ascii_ucd r)).
  { intros r Hr; rewrite str_lower_ascii; unfold is_ascii; rewrite Forall_map.
    eapply Forall_impl; [|exact Hr]; intros x Hx; apply kept_ascii, kept_lower, Hx. }
  destruct (map (sanitize_char ascii_ucd) (c :: s)) as [|x r] eqn:E;
    [discriminate|].
  cbv iota beta.
  destruct (uc_isdigit ascii_ucd x); apply Hk';
    [constructor; [reflexivity|]|]; exact Hk.
Qed.

(** Python's database maps U+0130 to two code points on [lower()], the second
    of which (U+0307) is not alphanumeric: any database with these entries
    makes the sanitizer non-idempotent on the one-character name U+0130. *)
Lemma sanitize_dotted_capital_i (u : UCD) :
  ascii_agree u ->
  uc_isalnum u 304 = true -> uc_isdigit u 304 = false ->
  uc_lower u 304 = [105; 775] -> uc_isalnum u 775 = false ->
  _sanitize_resource_name u [304] = [105; 775] /\
  _sanitize_resource_name u (_sanitize_resource_name u [304]) = [105; 95].
Proof.
  intros Hu Ha Hd Hl Hc.
  destruct (Hu 105 ltac:(lia)) as [Hi [Hid Hil]].
  destruct (Hu 95 ltac:(lia)) as [_ [_ Hul]].
  assert (H1 : _sanitize_resource_name u [304] = [105; 775]).
  { unfold _sanitize_resource_name, sanitize_char; simpl; rewrite Ha; simpl.
    rewrite Hd; unfold str_lower; simpl; rewrite Hl; reflexivity. }
  split; [exact H1|]. rewrite H1.
  unfold _sanitize_resource_name, sanitize_char; simpl; rewrite Hi, Hc; simpl.
  rewrite Hid; unfold str_lower; simpl; rewrite Hil, Hul; reflexivity.
Qed.

(** C6 (amended).  The sanitizer is idempotent on ASCII input, for any
    character database that agrees with Python's on ASCII. *)
Theorem sanitize_idempotent_ascii (u : UCD) (s : text) :
  ascii_agree u -> is_ascii s ->
  _sanitize_resource_name u (_sanitize_resource_name u s) =
  _sanitize_resource_name u s.
Proof.
  intros Hu Hs.
  rewrite (sanitize_agree u s Hu Hs).
  rewrite (sanitize_agree u _ Hu (sanitize_ascii_output s)).
  apply sanitize_ascii_ucd_idem.
Qed.

Lemma sanitize_idempotent_ascii_witness :
  (ascii_agree ascii_ucd /\ is_ascii (lit "3-Web Server")) /\
  _sanitize_resource_name ascii_ucd (_sanitize_resource_name ascii_ucd (lit "3-Web Server")) =
  _sanitize_resource_name ascii_ucd (lit "3-Web Server").
Proof.
  assert (Ha : ascii_agree ascii_ucd) by (intros c _; repeat split).
  assert (Hs : is_ascii (lit "3-Web Server")) by (repeat constructor; lia).
  split; [split; assumption|].
  apply (sanitize_idempotent_ascii ascii_ucd (lit "3-Web Server") Ha Hs).
Defined.

(** C6 (counterexample).  Not idempotent on all text: with Python's entries
    for U+0130 and U+0307, the name U+0130 sanitizes to U+0069 U+0307, which
    sanitizes to ["i_"]. *)
Lemma sanitize_not_idempotent :
  _sanitize_resource_name sample_ucd (_sanitize_resource_name sample_ucd [304]) <>
  _sanitize_resource_name sample_ucd [304].
Proof.
  assert (Hu : ascii_agree sample_ucd).
  { intros c Hc; simpl; repeat split.
    - destruct (Z.eqb_spec c 304); [lia|]; apply orb_false_r.
    - destruct (Z.eqb_spec c 304); [lia|reflexivity]. }
  destruct (sanitize_dotted_capital_i sample_ucd Hu eq_refl eq_refl eq_refl eq_refl)
    as [H1 H2].
  rewrite H2, H1; discriminate.
Qed.

(** C7.  The sanitizer replaces each character that is neither alphanumeric
    nor an underscore by an underscore, prepends an underscore when the result
    starts with a digit, lower-cases, and returns ["instance"] on empty input;
    ["3-test zone!"] sanitizes to ["_3_test_zone_"]. *)
Theorem sanitize_rules (u : UCD) :
  ascii_agree u ->
  _sanitize_resource_name u (lit "3-test zone!") = lit "_3_test_zone_" /\
  _sanitize_resource_name u [] = lit "instance" /\
  (forall c s,
     let r := map (fun x => if uc_isalnum u x || Z.eqb x 95 then x else 95) (c :: s) in
     _sanitize_resource_name u (c :: s) =
     str_lower u (match r with
                  | d :: _ => if uc_isdigit u d then 95 :: r else r
                  | [] => r
                  end)).
Proof.
  intros Hu; split; [|split].
  - rewrite sanitize_agree; [reflexivity|assumption|].
    repeat constructor; lia.
  - reflexivity.
  - intros c s r; unfold r, _sanitize_resource_name, sanitize_char; simpl.
    destruct (uc_isdigit u _); reflexivity.
Qed.

Lemma sanitize_rules_witness :
  ascii_agree ascii_ucd /\
  _sanitize_resource_name ascii_ucd (lit "3-test zone!") = lit "_3_test_zone_".
Proof.
  assert (Ha : ascii_agree ascii_ucd) by (intros c _; repeat split).
  split; [exact Ha|].
  exact (proj1 (sanitize_rules ascii_ucd Ha)).
Defined.

(** ** The tag formatter *)

Lemma tag_loop_map (indent : nat) (tags : list Tag) (lines : list text) :
  tag_loop indent tags lines = lines ++ map (tag_line indent) tags.
Proof.
  revert lines; induction tags as [|t tags IH]; intros lines; simpl.
  - now rewrite app_nil_r.
  - rewrite IH, <- app_assoc; reflexivity.
Qed.

(** C1 (amended).  A non-empty tag list is rendered as the opening line, one
    [key = "value"] line per tag in the order of the input list (no sorting),
    and the closing line. *)
Theorem format_tags_input_order (tag : Tag) (tags : list Tag) (indent : nat) :
  _format_tags (tag :: tags) indent =
  join nl ([spaces indent ++ lit "tags = {"] ++
           map (tag_line indent) (tag :: tags) ++
           [spaces indent ++ lit "}"]).
Proof.
  unfold _format_tags; rewrite tag_loop_map, <- app_assoc; reflexivity.
Qed.

(** C1 (counterexample).  Keys ["b"], ["a"] are emitted in that order, and
    the output depends on the order of the input list. *)
Lemma format_tags_not_sorted :
  _format_tags [{| tag_Key := Some (lit "b"); tag_Value := Some (lit "1") |};
                {| tag_Key := Some (lit "a"); tag_Value := Some (lit "2") |}] 2 =
  join nl [lit "  tags = {"; lit "    b = " ++ quoted (lit "1");
           lit "    a = " ++ quoted (lit "2"); lit "  }"] /\
  _format_tags [{| tag_Key := Some (lit "b"); tag_Value := Some (lit "1") |};
                {| tag_Key := Some (lit "a"); tag_Value := Some (lit "2") |}] 2 <>
  _format_tags [{| tag_Key := Some (lit "a"); tag_Value := Some (lit "2") |};
                {| tag_Key := Some (lit "b"); tag_Value := Some (lit "1") |}] 2.
Proof. split; [reflexivity | vm_compute; discriminate]. Qed.

(** ** Which lines each part of the primary block can contain *)

Lemma text_eqb_spec (a b : text) : text_eqb a b = true <-> a = b.
Proof. unfold text_eqb; destruct (list_eq_dec Z.eq_dec a b); split; congruence. Qed.

Lemma Forall_when_text (P : text -> Prop) (o : option text) (f : text -> text) :
  (forall t, P (f t)) -> Forall P (when_text o f).
Proof. intros H; destruct o as [[|c t]|]; simpl; auto. Qed.

Lemma format_tags_prefix (tags : list Tag) (indent : nat) :
  exists rest, _format_tags tags indent = spaces indent ++ lit "tags = {" ++ rest.
Proof.
  destruct tags as [|t tags].
  - exists (lit "}"); reflexivity.
  - rewrite format_tags_input_order; cbn [app map join].
    eexists; rewrite <- app_assoc; reflexivity.
Qed.

Ltac neq_lit :=
  let H := fresh in
  intro H; apply (f_equal (firstn 5)) in H; vm_compute in H; discriminate H.

Ltac not_in_markers :=
  let H := fresh in
  intro H; try unfold all_markers in H; cbn [In] in H;
  repeat match type of H with
         | _ \/ _ => destruct H as [H|H]; [revert H; neq_lit|]
         end;
  try exact H; revert H; neq_lit.

Ltac seg_split :=
  repeat match goal with
  | |- Forall _ (_ ++ _) => apply Forall_app; split
  | |- Forall _ (when_text _ _) => apply Forall_when_text; intro
  | |- Forall _ (_ :: _) => constructor
  | |- Forall _ [] => constructor
  | |- Forall _ (if ?b then _ else _) => destruct b
  | |- Forall _ (match ?x with _ => _ end) => destruct x
  end.

Ltac tags_prefix :=
  repeat match goal with
  | |- context [_format_tags ?t ?i] =>
      let r := fresh "r" in destruct (format_tags_prefix t i) as [r ->]
  end.

Ltac avoid_seg := unfold avoids; seg_split; try tags_prefix; not_in_markers.

Lemma key_avoids i : avoids all_markers (key_lines i).
Proof. unfold key_lines; avoid_seg. Qed.

Lemma head_avoids rn i : avoids all_markers (head_lines rn i).
Proof. unfold head_lines; avoid_seg. Qed.
Lemma az_avoids i : avoids all_markers (az_lines i).
Proof. unfold az_lines; avoid_seg. Qed.
Lemma subnet_avoids i : avoids all_markers (subnet_lines i).
Proof. unfold subnet_lines; avoid_seg. Qed.
Lemma sg_lines_shape i sg :
  sg_lines i = Ok sg ->
  sg = [] \/ exists ids, sg = [lit "  vpc_security_group_ids = " ++ json_dumps ids].
Proof.
  unfold sg_lines, exc_bind; intros H.
  repeat match type of H with
         | context [match ?x with _ => _ end] => destruct x
         end;
    try discriminate; injection H as <-;
    first [left; reflexivity | right; eexists; reflexivity].
Qed.
Lemma sg_avoids i sg : sg_lines i = Ok sg -> avoids all_markers sg.
Proof.
  intros H; destruct (sg_lines_shape i sg H) as [->|[ids ->]]; avoid_seg.
Qed.
Lemma private_ip_avoids i : avoids all_markers (private_ip_lines i).
Proof. unfold private_ip_lines; avoid_seg. Qed.
Lemma iam_avoids i : avoids all_markers (iam_lines i).
Proof. unfold iam_lines; avoid_seg. Qed.
Lemma src_dst_avoids i : avoids all_markers (src_dst_lines i).
Proof. unfold src_dst_lines; avoid_seg. Qed.
Lemma monitoring_avoids i : avoids all_markers (monitoring_lines i).
Proof. unfold monitoring_lines; avoid_seg. Qed.
Lemma ebs_optimized_avoids i : avoids all_markers (ebs_optimized_lines i).
Proof. unfold ebs_optimized_lines; avoid_seg. Qed.
Lemma termination_avoids i : avoids all_markers (termination_lines i).
Proof. unfold termination_lines; avoid_seg. Qed.
Lemma tenancy_avoids i : avoids all_markers (tenancy_lines i).
Proof. unfold tenancy_lines; avoid_seg. Qed.
Lemma placement_group_avoids i : avoids all_markers (placement_group_lines i).
Proof. unfold placement_group_lines; avoid_seg. Qed.
Lemma host_avoids i : avoids all_markers (host_lines i).
Proof. unfold host_lines; avoid_seg. Qed.
Lemma credit_avoids i : avoids all_markers (credit_lines i).
Proof. unfold credit_lines; avoid_seg. Qed.
Lemma metadata_avoids i : avoids all_markers (metadata_lines i).
Proof. unfold metadata_lines; avoid_seg. Qed.
Lemma enclave_avoids i : avoids all_markers (enclave_lines i).
Proof. unfold enclave_lines; avoid_seg. Qed.
Lemma capacity_avoids i : avoids all_markers (capacity_lines i).
Proof. unfold capacity_lines; avoid_seg. Qed.
Lemma hibernation_avoids i : avoids all_markers (hibernation_lines i).
Proof. unfold hibernation_lines; avoid_seg. Qed.
Lemma ephemeral_avoids i : avoids all_markers (ephemeral_lines i).
Proof.
  unfold ephemeral_lines, avoids; apply Forall_flat_map, Forall_forall.
  intros bd _; unfold ephemeral_block; seg_split; not_in_markers.
Qed.
Lemma tags_avoids i : avoids all_markers (tags_lines i).
Proof. unfold tags_lines; avoid_seg. Qed.
Lemma trailer_avoids : avoids all_markers trailer_lines.
Proof. unfold trailer_lines; avoid_seg. Qed.

Lemma user_data_avoids dec i :
  avoids [root_marker; ebs_marker] (user_data_lines dec i).
Proof.
  unfold user_data_lines, avoids; seg_split; try not_in_markers.
  rewrite Forall_map; apply Forall_forall; intros; not_in_markers.
Qed.

Lemma volume_detail_avoids v : avoids all_markers (volume_detail_lines v).
Proof. unfold volume_detail_lines; avoid_seg. Qed.
Lemma volume_tag_avoids v : avoids all_markers (volume_tag_lines v).
Proof. unfold volume_tag_lines; avoid_seg. Qed.

Lemma avoids_app ms a b : avoids ms a -> avoids ms b -> avoids ms (a ++ b).
Proof. intros; apply Forall_app; split; assumption. Qed.

Lemma avoids_sub ms ms' l : incl ms' ms -> avoids ms l -> avoids ms' l.
Proof.
  intros Hi H; eapply Forall_impl; [|exact H]; intros x Hx Hx'; apply Hx, Hi, Hx'.
Qed.

Lemma delete_avoids e : avoids all_markers [delete_line e; lit "  }"].
Proof. unfold delete_line; avoid_seg. Qed.

Lemma root_block_rest_avoids vols e : avoids all_markers (root_block_rest vols e).
Proof.
  unfold root_block_rest, avoids; seg_split;
    first [apply volume_detail_avoids | apply volume_tag_avoids
          | unfold delete_line; not_in_markers | not_in_markers].
Qed.

Lemma root_block_shape vols i :
  root_block_lines vols i = [] \/
  exists e, root_block_lines vols i = root_marker :: root_block_rest vols e.
Proof.
  unfold root_block_lines.
  destruct (RootDeviceName i) as [[|c r]|]; auto.
  destruct (find_root_volume _ _) as [e|]; auto.
  destruct (ebs_truthy e); auto.
  right; exists e; reflexivity.
Qed.

Lemma root_avoids vols i : avoids [ebs_marker; decoded_header] (root_block_lines vols i).
Proof.
  destruct (root_block_shape vols i) as [->|[e ->]]; [constructor|].
  constructor; [not_in_markers|].
  eapply avoids_sub; [|apply root_block_rest_avoids].
  intros x Hx; unfold all_markers; simpl in *; tauto.
Qed.

Lemma ebs_block_shape vols bd :
  exists rest, ebs_block vols bd = ebs_marker :: device_line (DeviceName bd) :: rest /\
               avoids all_markers rest.
Proof.
  unfold ebs_block.
  eexists; split; [reflexivity|].
  unfold avoids; seg_split;
    first [apply volume_detail_avoids | apply volume_tag_avoids
          | unfold delete_line; not_in_markers | not_in_markers].
Qed.

Lemma ebs_avoids vols i : avoids [root_marker; decoded_header] (ebs_block_lines vols i).
Proof.
  unfold ebs_block_lines, avoids; apply Forall_flat_map, Forall_forall.
  intros bd _; destruct (ebs_block_shape vols bd) as [rest [-> Hr]].
  constructor; [not_in_markers|]. constructor; [unfold device_line; not_in_markers|].
  eapply avoids_sub; [|exact Hr].
  intros x Hx; unfold all_markers; simpl in *; tauto.
Qed.

Lemma front_avoids rn sg i :
  avoids all_markers sg -> avoids all_markers (front_lines rn sg i).
Proof.
  intros Hsg; unfold front_lines;
  repeat apply avoids_app;
  auto using head_avoids, key_avoids, az_avoids, subnet_avoids, private_ip_avoids,
    iam_avoids, src_dst_avoids, monitoring_avoids, ebs_optimized_avoids,
    termination_avoids, tenancy_avoids, placement_group_avoids, host_avoids,
    credit_avoids, metadata_avoids, enclave_avoids, capacity_avoids,
    hibernation_avoids.
Qed.

Lemma back_avoids i : avoids all_markers (back_lines i).
Proof.
  unfold back_lines; repeat apply avoids_app;
  auto using ephemeral_avoids, tags_avoids, trailer_avoids.
Qed.

(** The primary block, when it is produced, in five parts. *)
Lemma instance_lines_split u dec self i :
  instance_resource_lines u dec self i =
  exc_bind (sg_lines i) (fun sg =>
    Ok (front_lines (resource_name u self i) sg i ++ user_data_lines dec i ++
        root_block_lines (volumes_data self) i ++
        ebs_block_lines (volumes_data self) i ++ back_lines i)).
Proof.
  unfold instance_resource_lines.
  destruct (sg_lines i) as [sg|e]; cbn [exc_bind]; [f_equal|reflexivity].
  unfold front_lines, back_lines.
  generalize (head_lines (resource_name u self i) i) (key_lines i) (az_lines i)
    (subnet_lines i) (private_ip_lines i) (iam_lines i) (src_dst_lines i)
    (monitoring_lines i) (ebs_optimized_lines i) (termination_lines i)
    (tenancy_lines i) (placement_group_lines i) (host_lines i) (credit_lines i)
    (metadata_lines i) (enclave_lines i) (capacity_lines i) (hibernation_lines i)
    (user_data_lines dec i) (root_block_lines (volumes_data self) i)
    (ebs_block_lines (volumes_data self) i) (ephemeral_lines i) (tags_lines i)
    trailer_lines.
  intros; rewrite <- !app_assoc; reflexivity.
Qed.

Lemma instance_lines_ok u dec self i L :
  instance_resource_lines u dec self i = Ok L ->
  exists sg, sg_lines i = Ok sg /\
    L = front_lines (resource_name u self i) sg i ++ user_data_lines dec i ++
        root_block_lines (volumes_data self) i ++
        ebs_block_lines (volumes_data self) i ++ back_lines i.
Proof.
  rewrite instance_lines_split.
  destruct (sg_lines i) as [sg|e]; cbn [exc_bind]; intros H; [|discriminate].
  exists sg; split; [reflexivity|congruence].
Qed.

(** The primary emitter fails exactly when the security-group test fails. *)
Lemma instance_lines_raise u dec self i e :
  instance_resource_lines u dec self i = Raise e <-> sg_lines i = Raise e.
Proof.
  unfold instance_resource_lines, exc_bind.
  destruct (sg_lines i); split; congruence.
Qed.

Lemma sg_lines_raise i :
  sg_lines i = Raise IndexError <->
  NetworkInterfaces i = Some [] /\ truthy_list (SecurityGroups i) = false.
Proof.
  unfold sg_lines, exc_bind.
  destruct (truthy_list (SecurityGroups i)).
  - split; [|intros [_ H]; discriminate].
    destruct (match NetworkInterfaces i with Some (_ :: _) => _ | _ => _ end);
      discriminate.
  - destruct (NetworkInterfaces i) as [[|ni nis]|]; simpl.
    + split; auto.
    + split; [|intros [H _]; discriminate].
      destruct (truthy_list (ini_Groups ni));
        [destruct (match _ with [] => _ | _ :: _ => _ end)|]; discriminate.
    + split; [|intros [H _]; discriminate].
      discriminate.
Qed.

Lemma avoids_not_in ms l m : avoids ms l -> In m ms -> ~ In m l.
Proof.
  intros H Hm Hl; unfold avoids in H; rewrite Forall_forall in H.
  apply (H m Hl Hm).
Qed.

Lemma count_avoids ms l m :
  avoids ms l -> In m ms -> count_occ (list_eq_dec Z.eq_dec) l m = 0%nat.
Proof. intros H Hm; apply count_occ_not_In, (avoids_not_in ms); assumption. Qed.

Lemma after_marker_skip m a b :
  ~ In m a -> after_marker m (a ++ b) = after_marker m b.
Proof.
  induction a as [|x a IH]; intros H; [reflexivity|].
  simpl; destruct (text_eqb x m) eqn:E.
  - apply text_eqb_spec in E; subst; exfalso; apply H; left; reflexivity.
  - apply IH; intros Hm; apply H; right; exact Hm.
Qed.

Lemma after_marker_blocks vols l b :
  ~ In ebs_marker b ->
  after_marker ebs_marker (flat_map (ebs_block vols) l ++ b) =
  map (fun bd => device_line (DeviceName bd)) l.
Proof.
  intros Hb; induction l as [|bd l IH].
  - simpl; rewrite <- (app_nil_r b), after_marker_skip by exact Hb; reflexivity.
  - cbn [flat_map]; destruct (ebs_block_shape vols bd) as [rest [Heq Hr]].
    rewrite Heq, <- app_assoc; simpl.
    replace (text_eqb ebs_marker ebs_marker) with true
      by (symmetry; apply text_eqb_spec; reflexivity).
    rewrite after_marker_skip, IH; [reflexivity|].
    apply (avoids_not_in all_markers); [exact Hr|right; left; reflexivity].
Qed.

Lemma find_root_volume_hit r pre bd0 post e0 :
  Forall (fun bd => DeviceName bd <> r) pre -> DeviceName bd0 = r ->
  bdm_Ebs bd0 = Some e0 ->
  find_root_volume (Some r) (pre ++ bd0 :: post) = Some e0.
Proof.
  intros Hpre Hd He; induction Hpre as [|bd pre Hbd Hpre IH]; simpl.
  - replace (text_eqb (DeviceName bd0) r) with true
      by (symmetry; apply text_eqb_spec; exact Hd).
    rewrite He; reflexivity.
  - destruct (text_eqb (DeviceName bd) r) eqn:E; [|exact IH].
    apply text_eqb_spec in E; contradiction.
Qed.

(** ** Storage blocks of the primary block *)

(** C3.  When the root device name [r] is set and the first block-device
    entry named [r] carries a non-empty [Ebs] dictionary, the primary block
    contains exactly one root-storage block, the one built from that entry's
    volume, and the [ebs_block_device] blocks are, in order, one per entry
    of another device name that carries a non-empty [Ebs] dictionary, each
    exactly once. *)
Theorem root_and_ebs_blocks (u : UCD) (dec : text -> option text)
    (self : EC2ToTerraform) (i : Instance) (r : text)
    (pre post : list BlockDeviceMapping) (bd0 : BlockDeviceMapping) (e0 : Ebs)
    (L : list text) :
  RootDeviceName i = Some r -> r <> [] ->
  BlockDeviceMappings i = Some (pre ++ bd0 :: post) ->
  Forall (fun bd => DeviceName bd <> r) pre -> DeviceName bd0 = r ->
  bdm_Ebs bd0 = Some e0 -> ebs_truthy e0 = true ->
  instance_resource_lines u dec self i = Ok L ->
  count_occ (list_eq_dec Z.eq_dec) L root_marker = 1%nat /\
  (exists A B, L = A ++ root_marker :: root_block_rest (volumes_data self) e0 ++ B) /\
  after_marker ebs_marker L =
    map (fun bd => device_line (DeviceName bd))
      (filter (fun bd => negb (text_eqb (DeviceName bd) r) &&
                         match bdm_Ebs bd with Some e => ebs_truthy e | None => false end)
              (pre ++ bd0 :: post)).
Proof.
  intros Hr Hne Hbd Hpre Hd He Hv Hok.
  destruct (instance_lines_ok u dec self i L Hok) as [sg [Hsg ->]].
  assert (Hroot : root_block_lines (volumes_data self) i =
                  root_marker :: root_block_rest (volumes_data self) e0).
  { unfold root_block_lines; cbv zeta; rewrite Hr, Hbd; cbn [get_list].
    rewrite (find_root_volume_hit _ pre bd0 post e0 Hpre Hd He).
    destruct r as [|c r']; [contradiction|].
    rewrite Hv; reflexivity. }
  assert (Hfront := front_avoids (resource_name u self i) sg i (sg_avoids i sg Hsg)).
  assert (Hud := user_data_avoids dec i).
  assert (Hrest := root_block_rest_avoids (volumes_data self) e0).
  assert (Hebs := ebs_avoids (volumes_data self) i).
  assert (Hback := back_avoids i).
  rewrite Hroot.
  split; [|split].
  - rewrite !count_occ_app.
    rewrite (count_avoids _ _ _ Hfront), (count_avoids _ _ _ Hud),
      (count_avoids _ _ _ Hebs), (count_avoids _ _ _ Hback) by (simpl; tauto).
    rewrite count_occ_cons_eq by reflexivity.
    rewrite (count_avoids _ _ _ Hrest) by (simpl; tauto).
    reflexivity.
  - exists (front_lines (resource_name u self i) sg i ++ user_data_lines dec i).
    eexists; rewrite <- !app_assoc; reflexivity.
  - rewrite (after_marker_skip _ (front_lines _ _ _))
      by (apply (avoids_not_in all_markers); [exact Hfront|simpl; tauto]).
    rewrite (after_marker_skip _ (user_data_lines _ _))
      by (apply (avoids_not_in [root_marker; ebs_marker]); [exact Hud|simpl; tauto]).
    rewrite (after_marker_skip _ (root_marker :: _)).
    2:{ intros [Heq|Hin]; [vm_compute in Heq; discriminate|].
        revert Hin; apply (avoids_not_in all_markers); [exact Hrest|simpl; tauto]. }
    unfold ebs_block_lines; rewrite Hbd, Hr.
    apply after_marker_blocks.
    apply (avoids_not_in all_markers); [exact Hback|simpl; tauto].
Qed.

Lemma root_and_ebs_blocks_witness :
  instance_resource_lines ascii_ucd (fun _ => None)
    (mk_self (Some storage_instance) []) storage_instance = Ok storage_lines /\
  count_occ (list_eq_dec Z.eq_dec) storage_lines root_marker = 1%nat /\
  (exists A B, storage_lines = A ++ root_marker ::
     root_block_rest [] {| ebs_VolumeId := Some (lit "vol-1");
                           ebs_DeleteOnTermination := Some true |} ++ B) /\
  after_marker ebs_marker storage_lines =
    map (fun bd => device_line (DeviceName bd))
      (filter (fun bd => negb (text_eqb (DeviceName bd) (lit "/dev/xvda")) &&
                 match bdm_Ebs bd with Some e => ebs_truthy e | None => false end)
         [ephemeral_mapping "/dev/sdb" "ephemeral0";
          ebs_mapping "/dev/xvda" "vol-1"; ebs_mapping "/dev/sdf" "vol-2"]).
Proof.
  assert (Hok : instance_resource_lines ascii_ucd (fun _ => None)
                  (mk_self (Some storage_instance) []) storage_instance = Ok storage_lines)
    by (vm_compute; reflexivity).
  split; [exact Hok|].
  apply (root_and_ebs_blocks ascii_ucd (fun _ => None)
           (mk_self (Some storage_instance) []) storage_instance (lit "/dev/xvda")
           [ephemeral_mapping "/dev/sdb" "ephemeral0"] [ebs_mapping "/dev/sdf" "vol-2"]
           (ebs_mapping "/dev/xvda" "vol-1")
           {| ebs_VolumeId := Some (lit "vol-1"); ebs_DeleteOnTermination := Some true |}
           storage_lines).
  - reflexivity.
  - discriminate.
  - reflexivity.
  - constructor; [intro H; vm_compute in H; discriminate|constructor].
  - reflexivity.
  - reflexivity.
  - reflexivity.
  - exact Hok.
Defined.

(** ** User data *)

(** C5.  When the user-data [Value] is a non-empty payload [v], the primary
    block is produced whenever the security-group part is (the decoder
    cannot make it fail), it always holds the line [user_data_base64 = "v"],
    it holds the decoded-comment header exactly when [v] decodes to a text
    shorter than 500 code points, and then the header is followed by one
    comment line per line of the decoded text. *)
Theorem user_data_emission (u : UCD) (dec : text -> option text)
    (self : EC2ToTerraform) (i : Instance) (v : text) (sg : list text) :
  match UserDataAttribute i with Some a => tattr_Value a | None => None end = Some v ->
  v <> [] -> sg_lines i = Ok sg ->
  exists L, instance_resource_lines u dec self i = Ok L /\
    In (lit "  user_data_base64 = " ++ quoted v) L /\
    (In decoded_header L <-> exists t, dec v = Some t /\ (List.length t < 500)%nat) /\
    (forall t, dec v = Some t -> (List.length t < 500)%nat ->
       exists A B, L = A ++ decoded_header ::
                       map (fun line => lit "  # " ++ line) (split_on 10 t) ++ B).
Proof.
  intros Hv Hne Hsg.
  assert (Hud : user_data_lines dec i =
    [nl ++ lit "  # User data (base64 encoded)"; lit "  user_data_base64 = " ++ quoted v] ++
    match dec v with
    | Some t => if Nat.ltb (List.length t) 500 then
                  decoded_header :: map (fun line => lit "  # " ++ line) (split_on 10 t)
                else []
    | None => []
    end).
  { unfold user_data_lines; cbv zeta; rewrite Hv.
    destruct v as [|c w]; [contradiction|reflexivity]. }
  assert (Hfront := front_avoids (resource_name u self i) sg i (sg_avoids i sg Hsg)).
  assert (Hroot := root_avoids (volumes_data self) i).
  assert (Hebs := ebs_avoids (volumes_data self) i).
  assert (Hback := back_avoids i).
  exists (front_lines (resource_name u self i) sg i ++ user_data_lines dec i ++
          root_block_lines (volumes_data self) i ++
          ebs_block_lines (volumes_data self) i ++ back_lines i).
  split; [rewrite instance_lines_split, Hsg; reflexivity|].
  rewrite Hud.
  split; [|split].
  - apply in_app_iff; right; apply in_app_iff; left; right; left; reflexivity.
  - split.
    + rewrite !in_app_iff; intros [H|[[H|H]|[H|[H|H]]]].
      * destruct (avoids_not_in all_markers _ decoded_header Hfront ltac:(simpl; tauto) H).
      * revert H; cbn [In]; intros [H|[H|[]]]; revert H; neq_lit.
      * destruct (dec v) as [t|]; [|contradiction].
        destruct (Nat.ltb_spec (List.length t) 500); [|contradiction].
        exists t; split; [reflexivity|assumption].
      * destruct (avoids_not_in _ _ decoded_header Hroot ltac:(simpl; tauto) H).
      * destruct (avoids_not_in _ _ decoded_header Hebs ltac:(simpl; tauto) H).
      * destruct (avoids_not_in all_markers _ decoded_header Hback ltac:(simpl; tauto) H).
    + intros [t [Ht Hl]]; rewrite Ht, (proj2 (Nat.ltb_lt _ _) Hl).
      apply in_app_iff; right; apply in_app_iff; left; right; right; left; reflexivity.
  - intros t Ht Hl; rewrite Ht, (proj2 (Nat.ltb_lt _ _) Hl).
    exists (front_lines (resource_name u self i) sg i ++
            [nl ++ lit "  # User data (base64 encoded)";
             lit "  user_data_base64 = " ++ quoted v]).
    exists (root_block_lines (volumes_data self) i ++
            ebs_block_lines (volumes_data self) i ++ back_lines i).
    rewrite <- !app_assoc; reflexivity.
Qed.

Lemma user_data_emission_witness :
  (match UserDataAttribute (user_data_instance "ZWNobyBoaQpleGl0") with
   | Some a => tattr_Value a | None => None end = Some (lit "ZWNobyBoaQpleGl0") /\
   lit "ZWNobyBoaQpleGl0" <> [] /\
   sg_lines (user_data_instance "ZWNobyBoaQpleGl0") = Ok []) /\
  exists L, instance_resource_lines ascii_ucd sample_b64decode
              (mk_self (Some (user_data_instance "ZWNobyBoaQpleGl0")) [])
              (user_data_instance "ZWNobyBoaQpleGl0") = Ok L /\
    In (lit "  user_data_base64 = " ++ quoted (lit "ZWNobyBoaQpleGl0")) L /\
    (In decoded_header L <-> exists t, sample_b64decode (lit "ZWNobyBoaQpleGl0") = Some t /\
                                        (List.length t < 500)%nat) /\
    (forall t, sample_b64decode (lit "ZWNobyBoaQpleGl0") = Some t ->
       (List.length t < 500)%nat ->
       exists A B, L = A ++ decoded_header ::
                       map (fun line => lit "  # " ++ line) (split_on 10 t) ++ B).
Proof.
  assert (Hv : match UserDataAttribute (user_data_instance "ZWNobyBoaQpleGl0") with
               | Some a => tattr_Value a | None => None end
               = Some (lit "ZWNobyBoaQpleGl0")) by reflexivity.
  assert (Hne : lit "ZWNobyBoaQpleGl0" <> []) by discriminate.
  assert (Hsg : sg_lines (user_data_instance "ZWNobyBoaQpleGl0") = Ok [])
    by (vm_compute; reflexivity).
  split; [split; [exact Hv|split; [exact Hne|exact Hsg]]|].
  exact (user_data_emission ascii_ucd sample_b64decode
           (mk_self (Some (user_data_instance "ZWNobyBoaQpleGl0")) [])
           (user_data_instance "ZWNobyBoaQpleGl0") (lit "ZWNobyBoaQpleGl0") [] Hv Hne Hsg).
Defined.

(** ** Security groups of an instance without interfaces *)

(** C10.  When the interface list of the instance is present but empty and
    it has no (non-empty) instance-level security-group list, the condition
    of the security-group part indexes element 0 of the empty list: the
    primary block is not produced, [IndexError] is raised. *)
Theorem empty_interfaces_index_error (u : UCD) (dec : text -> option text)
    (self : EC2ToTerraform) (i : Instance) :
  NetworkInterfaces i = Some [] -> truthy_list (SecurityGroups i) = false ->
  instance_resource_lines u dec self i = Raise IndexError /\
  _generate_instance_resource u dec self i = Raise IndexError.
Proof.
  intros Hni Hsg.
  assert (H : instance_resource_lines u dec self i = Raise IndexError).
  { apply instance_lines_raise, sg_lines_raise; split; assumption. }
  split; [exact H|].
  unfold _generate_instance_resource, exc_map; rewrite H; reflexivity.
Qed.

Lemma empty_interfaces_index_error_witness :
  (NetworkInterfaces (mk_instance (Some []) None None None) = Some [] /\
   truthy_list (SecurityGroups (mk_instance (Some []) None None None)) = false) /\
  _generate_instance_resource ascii_ucd (fun _ => None)
    (mk_self (Some (mk_instance (Some []) None None None)) [])
    (mk_instance (Some []) None None None) = Raise IndexError.
Proof.
  split; [split; reflexivity|].
  apply (empty_interfaces_index_error ascii_ucd (fun _ => None)
           (mk_self (Some (mk_instance (Some []) None None None)) [])
           (mk_instance (Some []) None None None)); reflexivity.
Defined.

(** ** The primary block of a bare instance *)

(** C8 (amended).  For an instance description where, beyond the image and
    the type, only the root device name [root] and its block-device entry
    [rbd] are set, [rbd] referring to a volume, the primary block is its
    three opening lines (resource header, [ami], [instance_type]), exactly
    one root-storage block for [rbd], and the fixed trailer: the
    [volume_tags] comment lines, the [lifecycle] block holding only
    comments, and the closing brace.  There is no optional field line and no
    other nested block than the root-storage and [lifecycle] blocks. *)
Theorem bare_instance_block (u : UCD) (dec : text -> option text)
    (self : EC2ToTerraform) (ami type_ : option text) (root : text)
    (rbd : BlockDeviceMapping) (e : Ebs) (v : text) :
  root <> [] -> DeviceName rbd = root -> bdm_Ebs rbd = Some e ->
  ebs_VolumeId e = Some v -> VirtualName rbd = None ->
  instance_resource_lines u dec self (rooted_instance ami type_ root rbd) =
  Ok (head_lines (resource_name u self (rooted_instance ami type_ root rbd))
        (rooted_instance ami type_ root rbd) ++
      root_marker :: root_block_rest (volumes_data self) e ++ trailer_lines).
Proof.
  intros Hr Hd He Hv Hvn.
  rewrite instance_lines_split; cbn [sg_lines exc_bind rooted_instance truthy_list
    NetworkInterfaces SecurityGroups].
  unfold front_lines, back_lines, root_block_lines, ebs_block_lines, ephemeral_lines.
  cbn [rooted_instance RootDeviceName BlockDeviceMappings get_list find_root_volume filter
       flat_map].
  assert (Heq : opt_text_eqb (Some (DeviceName rbd)) (Some root) = true)
    by (cbn; rewrite Hd; apply text_eqb_spec; reflexivity).
  unfold is_ebs_device, ephemeral_block; rewrite Heq, He, Hvn.
  assert (Ht : ebs_truthy e = true) by (unfold ebs_truthy; rewrite Hv; reflexivity).
  rewrite Ht; destruct root as [|c r]; [congruence|].
  reflexivity.
Qed.

Lemma bare_instance_block_witness :
  (lit "/dev/xvda" <> [] /\
   DeviceName (ebs_mapping "/dev/xvda" "vol-1") = lit "/dev/xvda" /\
   bdm_Ebs (ebs_mapping "/dev/xvda" "vol-1") =
     Some {| ebs_VolumeId := Some (lit "vol-1"); ebs_DeleteOnTermination := Some true |} /\
   ebs_VolumeId {| ebs_VolumeId := Some (lit "vol-1"); ebs_DeleteOnTermination := Some true |}
     = Some (lit "vol-1") /\
   VirtualName (ebs_mapping "/dev/xvda" "vol-1") = None) /\
  instance_resource_lines ascii_ucd (fun _ => None)
    (with_volumes (mk_self None []) [gp3_volume (lit "vol-1")])
    (rooted_instance (Some (lit "ami-0123")) (Some (lit "t3.micro")) (lit "/dev/xvda")
       (ebs_mapping "/dev/xvda" "vol-1")) =
  Ok (head_lines (resource_name ascii_ucd
                    (with_volumes (mk_self None []) [gp3_volume (lit "vol-1")])
                    (rooted_instance (Some (lit "ami-0123")) (Some (lit "t3.micro"))
                       (lit "/dev/xvda") (ebs_mapping "/dev/xvda" "vol-1")))
        (rooted_instance (Some (lit "ami-0123")) (Some (lit "t3.micro")) (lit "/dev/xvda")
           (ebs_mapping "/dev/xvda" "vol-1")) ++
      root_marker :: root_block_rest [gp3_volume (lit "vol-1")]
        {| ebs_VolumeId := Some (lit "vol-1"); ebs_DeleteOnTermination := Some true |} ++
      trailer_lines).
Proof.
  assert (Hr : lit "/dev/xvda" <> []) by discriminate.
  split; [split; [exact Hr|split; [reflexivity|split; [reflexivity|split; reflexivity]]]|].
  exact (bare_instance_block ascii_ucd (fun _ => None)
           (with_volumes (mk_self None []) [gp3_volume (lit "vol-1")])
           (Some (lit "ami-0123")) (Some (lit "t3.micro")) (lit "/dev/xvda")
           (ebs_mapping "/dev/xvda" "vol-1") _ (lit "vol-1") Hr eq_refl eq_refl eq_refl eq_refl).
Defined.

(** C8 (counterexample).  The primary block of a bare instance holds a
    nested [lifecycle] block, and no root-storage block. *)
Lemma bare_instance_has_lifecycle :
  exists L, instance_resource_lines ascii_ucd (fun _ => None)
              (mk_self (Some sample_bare) []) sample_bare = Ok L /\
            In lifecycle_marker L /\ ~ In root_marker L.
Proof.
  eexists; split; [vm_compute; reflexivity|].
  split; [vm_compute; tauto|].
  intro H; vm_compute in H; repeat destruct H as [H|H]; try discriminate H; exact H.
Qed.

(** ** Determinism *)

(** C2.  The generated text is a function of the converter state and the
    clock, and the clock only enters the header: for every clock reading,
    the configuration is the header followed by a body computed without it. *)
Theorem generation_deterministic (u : UCD) (dec : text -> option text)
    (self : EC2ToTerraform) (instance : Instance) (now : text) :
  full_config u dec now self instance =
  exc_map (fun body => join (nl ++ nl) (_generate_header now self instance :: body))
    (config_body u dec self instance).
Proof.
  unfold full_config, exc_map, exc_bind.
  destruct (config_body u dec self instance); reflexivity.
Qed.

(** ** The sort of [_generate_network_interfaces] *)

Lemma insert_by_key_perm x l : Permutation (insert_by_key x l) (x :: l).
Proof.
  induction l as [|y l IH]; simpl; [reflexivity|].
  destruct (sort_key x <? sort_key y); [reflexivity|].
  transitivity (y :: x :: l); [constructor; exact IH|apply perm_swap].
Qed.

Lemma sorted_enis_perm_acc l acc :
  Permutation (fold_left (fun acc x => insert_by_key x acc) l acc) (l ++ acc).
Proof.
  revert acc; induction l as [|x l IH]; intros acc; simpl; [reflexivity|].
  transitivity (l ++ insert_by_key x acc); [apply IH|].
  transitivity (l ++ x :: acc);
    [apply Permutation_app_head, insert_by_key_perm|apply Permutation_sym, Permutation_middle].
Qed.

Lemma sorted_enis_perm l : Permutation (sorted_enis l) l.
Proof.
  unfold sorted_enis; rewrite <- (app_nil_r l) at 2; apply sorted_enis_perm_acc.
Qed.

Lemma HdRel_insert y x l :
  key_le y x -> HdRel key_le y l -> HdRel key_le y (insert_by_key x l).
Proof.
  intros Hyx Hl; destruct l as [|z l]; simpl; [constructor; exact Hyx|].
  destruct (sort_key x <? sort_key z); constructor; [exact Hyx|].
  inversion Hl; assumption.
Qed.

Lemma insert_by_key_sorted x l :
  Sorted key_le l -> Sorted key_le (insert_by_key x l).
Proof.
  induction 1 as [|y l Hl IH Hy]; simpl.
  - constructor; constructor.
  - destruct (Z.ltb_spec (sort_key x) (sort_key y)).
    + constructor; [constructor; assumption|constructor; unfold key_le; lia].
    + constructor; [exact IH|apply HdRel_insert; [unfold key_le; lia|exact Hy]].
Qed.

Lemma sorted_enis_sorted l : StronglySorted key_le (sorted_enis l).
Proof.
  apply Sorted_StronglySorted; [intros a b c; unfold key_le; lia|].
  unfold sorted_enis.
  assert (H : Sorted key_le (@nil NetworkInterface)) by constructor.
  revert H; generalize (@nil NetworkInterface).
  induction l as [|x l IH]; intros acc Hacc; simpl; [exact Hacc|].
  apply IH, insert_by_key_sorted, Hacc.
Qed.

Lemma attachment_key e k :
  attachment_index e = Some k -> sort_key e = k /\ device_index_or 0 e = k.
Proof.
  unfold attachment_index, sort_key, device_index_or.
  destruct (eni_Attachment e) as [a|]; [|discriminate].
  destruct (DeviceIndex a); [|discriminate]; intros H; injection H; auto.
Qed.

Lemma filter_all {A} (f : A -> bool) l : Forall (fun x => f x = true) l -> filter f l = l.
Proof. induction 1 as [|x l Hx _ IH]; simpl; [reflexivity|]; rewrite Hx, IH; reflexivity. Qed.

(** C4.  When the interface [e0] has attachment index [m] and every other
    interface has an attachment index above [m], the satellite text is one
    [aws_network_interface] resource with its attachment per interface of
    index above [m] (so never for [e0]), in ascending index order, each
    printed with its own index. *)
Theorem satellite_interfaces (u : UCD) (self : EC2ToTerraform) (instance : Instance)
    (pre post : list NetworkInterface) (e0 : NetworkInterface) (m : Z) :
  network_interfaces_data self = pre ++ e0 :: post ->
  attachment_index e0 = Some m ->
  Forall (fun e => exists k, attachment_index e = Some k /\ m < k) (pre ++ post) ->
  exists s,
    Permutation s (filter (fun e => m <? sort_key e) (network_interfaces_data self)) /\
    StronglySorted key_le s /\
    Forall (fun e => device_index_or 0 e = sort_key e /\ m < sort_key e) s /\
    _generate_network_interfaces u self instance =
      join nl (flat_map (eni_block (resource_name u self instance)) s).
Proof.
  intros Hd Hm Hf.
  destruct (attachment_key e0 m Hm) as [Hk0 _].
  assert (Hf' : Forall (fun e => device_index_or 0 e = sort_key e /\ m < sort_key e)
                  (pre ++ post)).
  { eapply Forall_impl; [|exact Hf]; intros e [k [Hk Hlt]].
    destruct (attachment_key e k Hk) as [H1 H2]; rewrite H1, H2; split; [reflexivity|exact Hlt]. }
  assert (Hp := sorted_enis_perm (pre ++ e0 :: post)).
  assert (Hs := sorted_enis_sorted (pre ++ e0 :: post)).
  destruct (sorted_enis (pre ++ e0 :: post)) as [|h t] eqn:Es.
  { apply Permutation_length in Hp; rewrite length_app in Hp; simpl in Hp; lia. }
  assert (Hh : h = e0).
  { assert (Hin : In e0 (h :: t)) by (apply (Permutation_in _ (Permutation_sym Hp));
                                      apply in_elt).
    destruct Hin as [Heq|Hin]; [exact Heq|exfalso].
    assert (Hle : key_le h e0).
    { apply StronglySorted_inv in Hs; destruct Hs as [_ Hall].
      rewrite Forall_forall in Hall; exact (Hall e0 Hin). }
    unfold key_le in Hle; rewrite Forall_forall in Hf'.
    assert (Hh0 : In h (pre ++ e0 :: post))
      by (apply (Permutation_in _ Hp); left; reflexivity).
    apply in_app_iff in Hh0; destruct Hh0 as [H|[H|H]].
    - destruct (Hf' h) as [_ Hlt]; [apply in_app_iff; left; exact H|lia].
    - subst h.
      assert (Ht : Permutation t (pre ++ post))
        by (apply (Permutation_app_inv [] t pre post e0); exact Hp).
      destruct (Hf' e0) as [_ Hlt]; [apply (Permutation_in _ Ht), Hin|lia].
    - destruct (Hf' h) as [_ Hlt]; [apply in_app_iff; right; exact H|lia]. }
  subst h.
  assert (Ht : Permutation t (pre ++ post)).
  { apply (Permutation_app_inv [] t pre post e0); exact Hp. }
  exists t; split; [|split; [|split]].
  - rewrite Hd, filter_app; cbn [filter]; rewrite Hk0, Z.ltb_irrefl, <- filter_app.
    rewrite filter_all; [exact Ht|].
    eapply Forall_impl; [|exact Hf']; intros e [_ Hlt]; apply Z.ltb_lt, Hlt.
  - apply StronglySorted_inv in Hs; apply Hs.
  - apply (Permutation_Forall (Permutation_sym Ht)), Hf'.
  - unfold _generate_network_interfaces; rewrite Hd, Es; cbn [tl].
    destruct (Nat.leb_spec (List.length (pre ++ e0 :: post)) 1) as [Hl|Hl];
      [|reflexivity].
    rewrite length_app in Hl; simpl in Hl.
    destruct pre, post; simpl in Hl; try lia.
    simpl in Ht; apply Permutation_sym, Permutation_nil in Ht; subst t; reflexivity.
Qed.

Lemma satellite_interfaces_witness :
  (network_interfaces_data
     (mk_self (Some sample_bare) [mk_eni 2 "subnet-c"; mk_eni 0 "subnet-a"; mk_eni 1 "subnet-b"])
   = [mk_eni 2 "subnet-c"] ++ mk_eni 0 "subnet-a" :: [mk_eni 1 "subnet-b"] /\
   attachment_index (mk_eni 0 "subnet-a") = Some 0 /\
   Forall (fun e => exists k, attachment_index e = Some k /\ 0 < k)
     ([mk_eni 2 "subnet-c"] ++ [mk_eni 1 "subnet-b"])) /\
  exists s,
    Permutation s (filter (fun e => 0 <? sort_key e)
      [mk_eni 2 "subnet-c"; mk_eni 0 "subnet-a"; mk_eni 1 "subnet-b"]) /\
    StronglySorted key_le s /\
    Forall (fun e => device_index_or 0 e = sort_key e /\ 0 < sort_key e) s /\
    _generate_network_interfaces ascii_ucd
      (mk_self (Some sample_bare) [mk_eni 2 "subnet-c"; mk_eni 0 "subnet-a"; mk_eni 1 "subnet-b"])
      sample_bare =
      join nl (flat_map (eni_block (resource_name ascii_ucd
        (mk_self (Some sample_bare) [mk_eni 2 "subnet-c"; mk_eni 0 "subnet-a"; mk_eni 1 "subnet-b"])
        sample_bare)) s).
Proof.
  assert (Hf : Forall (fun e => exists k, attachment_index e = Some k /\ 0 < k)
                 ([mk_eni 2 "subnet-c"] ++ [mk_eni 1 "subnet-b"])).
  { repeat constructor; eexists; split; [reflexivity|lia|reflexivity|lia]. }
  split; [split; [reflexivity|split; [reflexivity|exact Hf]]|].
  exact (satellite_interfaces ascii_ucd
           (mk_self (Some sample_bare) [mk_eni 2 "subnet-c"; mk_eni 0 "subnet-a"; mk_eni 1 "subnet-b"])
           sample_bare [mk_eni 2 "subnet-c"] [mk_eni 1 "subnet-b"] (mk_eni 0 "subnet-a") 0
           eq_refl eq_refl Hf).
Defined.

(** ** The sink *)

Lemma fs_update_other fs p c q : q <> p -> fs_update fs p c q = fs q.
Proof.
  intros H; unfold fs_update.
  destruct (text_eqb q p) eqn:E; [apply text_eqb_spec in E; contradiction|reflexivity].
Qed.

Lemma fs_update_same fs p c : fs_update fs p c p = c.
Proof.
  unfold fs_update; replace (text_eqb p p) with true
    by (symmetry; apply text_eqb_spec; reflexivity); reflexivity.
Qed.

(** C9 (amended).  Writing the configuration to the path [p] touches no other
    path and is attempted once.  If [open] fails, the file system is
    unchanged; otherwise [open(p, 'w')] truncated [p] first, so a write that
    fails leaves the prefix of the configuration written so far in place of
    the old content.  A failure is reported on stderr and ends the run with
    exit status 1; a success returns the configuration. *)
Theorem write_failure_behaviour (u : UCD) (dec : text -> option text) (now : text)
    (self : EC2ToTerraform) (inst : Instance) (config p : text)
    (fs : filesystem) (fault : io_fault) :
  instance_data self = Some inst ->
  full_config u dec now self inst = Ok config ->
  p <> [] ->
  (forall q, q <> p ->
     run_fs (generate_terraform u dec now self (Some p) fs fault) q = fs q) /\
  match fault with
  | NoFault =>
      run_result_of (generate_terraform u dec now self (Some p) fs fault) = Returned config /\
      run_fs (generate_terraform u dec now self (Some p) fs fault) p = Some config /\
      run_stderr (generate_terraform u dec now self (Some p) fs fault) = []
  | OpenFails msg =>
      run_result_of (generate_terraform u dec now self (Some p) fs fault) = Exited 1 /\
      run_fs (generate_terraform u dec now self (Some p) fs fault) p = fs p /\
      run_stderr (generate_terraform u dec now self (Some p) fs fault) =
        [lit "Error writing to file: " ++ msg]
  | WriteFailsAfter n msg =>
      run_result_of (generate_terraform u dec now self (Some p) fs fault) = Exited 1 /\
      run_fs (generate_terraform u dec now self (Some p) fs fault) p = Some (firstn n config) /\
      run_stderr (generate_terraform u dec now self (Some p) fs fault) =
        [lit "Error writing to file: " ++ msg]
  end.
Proof.
  intros Hi Hc Hp.
  unfold generate_terraform; rewrite Hi, Hc.
  destruct p as [|c p']; [contradiction|].
  destruct fault as [|msg|n msg]; cbn [write_file run_fs run_result_of run_stderr].
  - split; [intros q Hq; apply fs_update_other, Hq|].
    split; [reflexivity|split; [apply fs_update_same|reflexivity]].
  - split; [intros; reflexivity|repeat split].
  - split; [intros q Hq; apply fs_update_other, Hq|].
    split; [reflexivity|split; [apply fs_update_same|reflexivity]].
Qed.

Lemma write_failure_behaviour_witness :
  (instance_data (mk_self (Some sample_bare) []) = Some sample_bare /\
   full_config ascii_ucd (fun _ => None) sample_now (mk_self (Some sample_bare) [])
     sample_bare = Ok sample_config /\
   lit "main.tf" <> []) /\
  run_result_of failed_write_run = Exited 1 /\
  run_fs failed_write_run (lit "main.tf") = Some (firstn 0 sample_config) /\
  run_stderr failed_write_run =
    [lit "Error writing to file: " ++ lit "[Errno 28] No space left on device"].
Proof.
  assert (Hc : full_config ascii_ucd (fun _ => None) sample_now
                 (mk_self (Some sample_bare) []) sample_bare = Ok sample_config)
    by (vm_compute; reflexivity).
  assert (Hp : lit "main.tf" <> []) by discriminate.
  split; [split; [reflexivity|split; [exact Hc|exact Hp]]|].
  exact (proj2 (write_failure_behaviour ascii_ucd (fun _ => None) sample_now
           (mk_self (Some sample_bare) []) sample_bare sample_config (lit "main.tf") old_fs
           (WriteFailsAfter 0 (lit "[Errno 28] No space left on device")) eq_refl Hc Hp)).
Defined.

(** C9 (counterexample).  The write is not atomic: when the disk is full,
    the run ends with status 1 and [main.tf], which held an earlier
    configuration, is left empty. *)
Lemma write_failure_truncates :
  old_fs (lit "main.tf") = Some (lit "old configuration") /\
  run_result_of failed_write_run = Exited 1 /\
  run_fs failed_write_run (lit "main.tf") = Some [] /\
  run_fs failed_write_run (lit "main.tf") <> old_fs (lit "main.tf").
Proof.
  vm_compute; split; [reflexivity|split; [reflexivity|split; [reflexivity|discriminate]]].
Qed.

(** * Further properties of the converter *)

(** ** Tag lookup and the instance name *)

(** [_get_tag_value] returns the value of the first tag whose key is [key];
    later tags with the same key are never consulted. *)
Theorem get_tag_value_first (pre post : list Tag) (t : Tag) (key : text) :
  Forall (fun tg => tag_Key tg <> Some key) pre -> tag_Key t = Some key ->
  _get_tag_value (pre ++ t :: post) key = tag_Value t.
Proof.
  intros Hpre Ht; induction Hpre as [|tg pre Htg _ IH]; simpl.
  - rewrite Ht; replace (text_eqb key key) with true
      by (symmetry; apply text_eqb_spec; reflexivity); reflexivity.
  - destruct (tag_Key tg) as [k|] eqn:E; [|exact IH].
    destruct (text_eqb k key) eqn:Ek; [|exact IH].
    apply text_eqb_spec in Ek; subst k; contradiction.
Qed.

Lemma get_tag_value_first_witness :
  (Forall (fun tg => tag_Key tg <> Some (lit "Name"))
     [{| tag_Key := Some (lit "env"); tag_Value := Some (lit "prod") |}] /\
   tag_Key {| tag_Key := Some (lit "Name"); tag_Value := Some (lit "web") |} =
     Some (lit "Name")) /\
  _get_tag_value
    ([{| tag_Key := Some (lit "env"); tag_Value := Some (lit "prod") |}] ++
     {| tag_Key := Some (lit "Name"); tag_Value := Some (lit "web") |} ::
     [{| tag_Key := Some (lit "Name"); tag_Value := Some (lit "db") |}]) (lit "Name") =
  Some (lit "web").
Proof.
  assert (Hpre : Forall (fun tg => tag_Key tg <> Some (lit "Name"))
                   [{| tag_Key := Some (lit "env"); tag_Value := Some (lit "prod") |}])
    by (constructor; [discriminate|constructor]).
  split; [split; [exact Hpre|reflexivity]|].
  exact (get_tag_value_first _ _
           {| tag_Key := Some (lit "Name"); tag_Value := Some (lit "web") |}
           (lit "Name") Hpre eq_refl).
Defined.

Lemma get_tag_value_absent (tags : list Tag) (key : text) :
  Forall (fun tg => tag_Key tg <> Some key) tags -> _get_tag_value tags key = None.
Proof.
  induction 1 as [|tg tags Htg _ IH]; simpl; [reflexivity|].
  destruct (tag_Key tg) as [k|] eqn:E; [|exact IH].
  destruct (text_eqb k key) eqn:Ek; [|exact IH].
  apply text_eqb_spec in Ek; subst k; contradiction.
Qed.

(** The name used for the instance (header, EIP comments, resource names)
    comes from its first [Name] tag: it is that tag's value when the value
    is a non-empty string, and the instance id when the tag has no value or
    an empty one, even if a later [Name] tag has a value. *)
Theorem instance_name_first_name_tag (self : EC2ToTerraform) (i : Instance)
    (pre post : list Tag) (t : Tag) :
  inst_Tags i = Some (pre ++ t :: post) ->
  Forall (fun tg => tag_Key tg <> Some (lit "Name")) pre ->
  tag_Key t = Some (lit "Name") ->
  instance_name self i =
    match tag_Value t with Some ((_ :: _) as n) => n | _ => instance_id self end.
Proof.
  intros Ht Hpre Hk; unfold instance_name; rewrite Ht; cbn [get_list].
  rewrite (get_tag_value_first pre post t _ Hpre Hk); reflexivity.
Qed.

Lemma instance_name_first_name_tag_witness :
  (inst_Tags (with_name_tags [] (Some []) (Some (lit "web"))) =
     Some ([] ++ {| tag_Key := Some (lit "Name"); tag_Value := Some [] |} ::
           [{| tag_Key := Some (lit "Name"); tag_Value := Some (lit "web") |}]) /\
   Forall (fun tg => tag_Key tg <> Some (lit "Name")) [] /\
   tag_Key {| tag_Key := Some (lit "Name"); tag_Value := Some [] |} = Some (lit "Name")) /\
  instance_name (mk_self None []) (with_name_tags [] (Some []) (Some (lit "web"))) =
    lit "i-0abc".
Proof.
  split; [split; [reflexivity|split; [constructor|reflexivity]]|].
  exact (instance_name_first_name_tag (mk_self None [])
           (with_name_tags [] (Some []) (Some (lit "web"))) [] _
           {| tag_Key := Some (lit "Name"); tag_Value := Some [] |} eq_refl
           (Forall_nil _) eq_refl).
Defined.

(** ** Resource names *)

Lemma kept_lower_ident (c : Z) :
  ascii_kept c = true ->
  (97 <= ascii_lower c <= 122) \/ (48 <= ascii_lower c <= 57) \/ ascii_lower c = 95.
Proof. unfold ascii_kept, ascii_isalnum, ascii_isdigit, ascii_isalpha, ascii_lower; zbool. Qed.

Lemma sanitize_ascii_ucd_ident (s : text) :
  _sanitize_resource_name ascii_ucd s <> [] /\
  Forall (fun c => (97 <= c <= 122) \/ (48 <= c <= 57) \/ c = 95)
    (_sanitize_resource_name ascii_ucd s) /\
  (forall c r, _sanitize_resource_name ascii_ucd s = c :: r -> ~ (48 <= c <= 57)).
Proof.
  destruct s as [|c0 s].
  - split; [discriminate|split].
    + cbn; repeat (apply Forall_cons; [lia|]); apply Forall_nil.
    + intros c r H; injection H; intros; subst; lia.
  - unfold _sanitize_resource_name; cbv zeta.
    assert (Hk : Forall (fun x => ascii_kept x = true) (map (sanitize_char ascii_ucd) (c0 :: s))).
    { apply Forall_forall; intros x Hx; apply in_map_iff in Hx.
      destruct Hx as [y [<- _]]; apply sanitize_char_kept. }
    change (map (sanitize_char ascii_ucd) (c0 :: s))
      with (sanitize_char ascii_ucd c0 :: map (sanitize_char ascii_ucd) s) in *.
    set (h := sanitize_char ascii_ucd c0) in *.
    set (m := map (sanitize_char ascii_ucd) s) in *.
    assert (Hall : forall l, Forall (fun x => ascii_kept x = true) l ->
              Forall (fun c => (97 <= c <= 122) \/ (48 <= c <= 57) \/ c = 95)
                (str_lower ascii_ucd l)).
    { intros l Hl; rewrite str_lower_ascii, Forall_map.
      eapply Forall_impl; [|exact Hl]; intros x Hx; apply kept_lower_ident, Hx. }
    cbn [uc_isdigit ascii_ucd].
    destruct (ascii_isdigit h) eqn:Ed.
    + cbv iota; split; [discriminate|split].
      * apply Hall; constructor; [reflexivity|exact Hk].
      * intros c r H; injection H; intros; subst; cbn in *; lia.
    + cbv iota; split; [discriminate|split].
      * apply Hall, Hk.
      * intros c r H; injection H; intros; subst c.
        rewrite <- (digit_lower h) in Ed; unfold ascii_isdigit in Ed; zbool.
Qed.

(** For a database that agrees with Python's on ASCII and an instance name
    made of ASCII characters, the resource name is a valid Terraform
    identifier: non-empty, made of lower-case letters, digits and
    underscores, and not starting with a digit. *)
Theorem resource_name_identifier (u : UCD) (self : EC2ToTerraform) (i : Instance) :
  ascii_agree u -> is_ascii (instance_name self i) ->
  resource_name u self i <> [] /\
  Forall (fun c => (97 <= c <= 122) \/ (48 <= c <= 57) \/ c = 95) (resource_name u self i) /\
  (forall c r, resource_name u self i = c :: r -> ~ (48 <= c <= 57)).
Proof.
  intros Hu Ha; unfold resource_name; rewrite (sanitize_agree u _ Hu Ha).
  apply sanitize_ascii_ucd_ident.
Qed.

Lemma resource_name_identifier_witness :
  (ascii_agree ascii_ucd /\
   is_ascii (instance_name (mk_self None []) (with_name_tags [] (Some (lit "3 Web-Server")) None))) /\
  (resource_name ascii_ucd (mk_self None []) (with_name_tags [] (Some (lit "3 Web-Server")) None) <> [] /\
   Forall (fun c => (97 <= c <= 122) \/ (48 <= c <= 57) \/ c = 95)
     (resource_name ascii_ucd (mk_self None []) (with_name_tags [] (Some (lit "3 Web-Server")) None)) /\
   (forall c r, resource_name ascii_ucd (mk_self None [])
                  (with_name_tags [] (Some (lit "3 Web-Server")) None) = c :: r ->
                ~ (48 <= c <= 57))).
Proof.
  assert (Ha : ascii_agree ascii_ucd) by (intros c _; repeat split).
  assert (Hs : is_ascii (instance_name (mk_self None [])
                 (with_name_tags [] (Some (lit "3 Web-Server")) None))).
  { cbn; repeat (apply Forall_cons; [lia|]); apply Forall_nil. }
  split; [split; assumption|].
  exact (resource_name_identifier ascii_ucd (mk_self None [])
           (with_name_tags [] (Some (lit "3 Web-Server")) None) Ha Hs).
Defined.

(** ** The security-group line *)

(** When the instance lists network interfaces, the security groups of the
    primary block are those of the first interface, whatever the
    instance-level [SecurityGroups] list holds: if the first interface has
    no group, no [vpc_security_group_ids] line is written. *)
Theorem sg_from_first_interface (i : Instance) (ni : InstanceNetworkInterface)
    (rest : list InstanceNetworkInterface) :
  NetworkInterfaces i = Some (ni :: rest) ->
  sg_lines i =
    Ok (match map GroupId (get_list (ini_Groups ni)) with
        | [] => []
        | sg_ids => [lit "  vpc_security_group_ids = " ++ json_dumps sg_ids]
        end).
Proof.
  intros H; unfold sg_lines, exc_bind; rewrite H.
  destruct (truthy_list (SecurityGroups i));
    destruct (ini_Groups ni) as [[|g gs]|]; reflexivity.
Qed.

Lemma sg_from_first_interface_witness :
  NetworkInterfaces (sg_instance (Some [{| GroupId := lit "sg-1" |}]) (Some [empty_ni]))
    = Some [empty_ni] /\
  sg_lines (sg_instance (Some [{| GroupId := lit "sg-1" |}]) (Some [empty_ni])) = Ok [].
Proof.
  split; [reflexivity|].
  exact (sg_from_first_interface
           (sg_instance (Some [{| GroupId := lit "sg-1" |}]) (Some [empty_ni]))
           empty_ni [] eq_refl).
Defined.

Ltac lit_printable :=
  cbn; repeat (apply Forall_cons; [unfold printable; lia|]); apply Forall_nil.

Lemma hex_digit_printable (n : Z) : 0 <= n < 16 -> printable (hex_digit n).
Proof. unfold printable, hex_digit; intros H; destruct (Z.ltb_spec n 10); lia. Qed.

Lemma u_escape_printable (n : Z) : Forall printable (u_escape n).
Proof.
  unfold u_escape.
  repeat constructor; try (unfold printable; lia);
    apply hex_digit_printable, Z.mod_pos_bound; lia.
Qed.

Lemma json_char_printable (c : Z) : Forall printable (json_char c).
Proof.
  unfold json_char.
  repeat match goal with
  | |- Forall _ (if ?b then _ else _) => destruct b eqn:?
  end;
  try (lit_printable);
  try (apply Forall_app; split); try apply u_escape_printable.
Qed.

Lemma json_dumps_printable (xs : list text) : Forall printable (json_dumps xs).
Proof.
  unfold json_dumps.
  assert (Hj : forall l, Forall (Forall printable) l -> Forall printable (join (lit ", ") l)).
  { induction l as [|x l IH]; intros H; [constructor|].
    inversion H as [|? ? Hx Hl]; subst.
    destruct l as [|y l]; [exact Hx|].
    change (join (lit ", ") (x :: y :: l)) with (x ++ lit ", " ++ join (lit ", ") (y :: l)).
    apply Forall_app; split; [exact Hx|]; apply Forall_app; split; [|apply IH, Hl].
    lit_printable. }
  apply Forall_app; split; [lit_printable|].
  apply Forall_app; split; [|lit_printable].
  apply Hj; apply Forall_forall; intros t Ht; apply in_map_iff in Ht.
  destruct Ht as [x [<- _]]; unfold json_str.
  apply Forall_app; split; [lit_printable|].
  apply Forall_app; split; [|lit_printable].
  apply Forall_forall; intros c Hc; apply in_flat_map in Hc.
  destruct Hc as [y [_ Hy]]; revert c Hy; apply Forall_forall, json_char_printable.
Qed.

(** The security-group part of the primary block is printable ASCII, whatever
    characters the group ids hold: [json.dumps] escapes quotes, backslashes,
    control characters and every non-ASCII character. *)
Theorem sg_lines_printable (i : Instance) (sg : list text) :
  sg_lines i = Ok sg -> Forall (Forall printable) sg.
Proof.
  intros H; destruct (sg_lines_shape i sg H) as [->|[ids ->]].
  - constructor.
  - constructor; [|constructor].
    apply Forall_app; split; [lit_printable|].
    apply json_dumps_printable.
Qed.

Lemma sg_lines_printable_witness :
  sg_lines (sg_instance None (Some [{| ini_Groups := Some [{| GroupId := [10; 233; 34] |}] |}]))
    = Ok [lit "  vpc_security_group_ids = " ++ json_dumps [[10; 233; 34]]] /\
  Forall (Forall printable) [lit "  vpc_security_group_ids = " ++ json_dumps [[10; 233; 34]]].
Proof.
  assert (H : sg_lines (sg_instance None
                (Some [{| ini_Groups := Some [{| GroupId := [10; 233; 34] |}] |}]))
              = Ok [lit "  vpc_security_group_ids = " ++ json_dumps [[10; 233; 34]]])
    by reflexivity.
  split; [exact H|].
  exact (sg_lines_printable _ _ H).
Defined.

(** ** Elastic IP resources *)

Lemma digits_rev_value (f : nat) (n : Z) :
  0 <= n -> n < Z.of_nat f -> digits_value (digits_rev f n) = n.
Proof.
  revert n; induction f as [|f IH]; intros n H0 Hf; [lia|].
  cbn [digits_rev digits_value].
  assert (Hdm := Z.div_mod n 10 ltac:(lia)).
  assert (Hm := Z.mod_pos_bound n 10 ltac:(lia)).
  destruct (Z.eqb_spec (n / 10) 0) as [Hq|Hq].
  - cbn [digits_value]; lia.
  - rewrite IH.
    + lia.
    + apply Z.div_pos; lia.
    + assert (n / 10 < n) by (apply Z.div_lt; lia). lia.
Qed.

Lemma z_str_nonneg (n : Z) :
  0 <= n -> z_str n = rev (digits_rev (S (Z.to_nat n)) n).
Proof.
  intros H; unfold z_str; rewrite Z.abs_eq by exact H.
  destruct (Z.ltb_spec n 0); [lia|reflexivity].
Qed.

(** [int(str(n)) == n] for [n >= 0]. *)
Lemma z_str_value (n : Z) : 0 <= n -> digits_value (rev (z_str n)) = n.
Proof.
  intros H; rewrite z_str_nonneg, rev_involutive by exact H.
  apply digits_rev_value; [exact H|rewrite Nat2Z.inj_succ, Z2Nat.id; lia].
Qed.

Lemma z_str_inj (a b : Z) : 0 <= a -> 0 <= b -> z_str a = z_str b -> a = b.
Proof.
  intros Ha Hb H; rewrite <- (z_str_value a Ha), <- (z_str_value b Hb), H; reflexivity.
Qed.

Lemma z_str_not_nil (n : Z) : 0 <= n -> z_str n <> [].
Proof.
  intros H; rewrite z_str_nonneg by exact H; cbn [digits_rev].
  intros E; apply (f_equal (@List.length Z)) in E; rewrite length_rev in E; discriminate E.
Qed.

Lemma quoted_inj_mid (p s x y : text) :
  p ++ quoted x ++ s = p ++ quoted y ++ s -> x = y.
Proof.
  unfold quoted; intros H; apply app_inv_head in H.
  rewrite <- !app_assoc in H; apply app_inv_head in H.
  apply app_inv_tail in H; exact H.
Qed.

Lemma eip_header_inj (rn : text) (a b : Z) :
  0 <= a -> 0 <= b -> eip_header_of rn a = eip_header_of rn b -> a = b.
Proof.
  intros Ha Hb H; unfold eip_header_of in H.
  apply (quoted_inj_mid (lit "resource " ++ quoted (lit "aws_eip") ++ lit " ") (lit " {"))
    in H.
  destruct (Z.ltb_spec 0 a), (Z.ltb_spec 0 b); try apply app_inv_head in H.
  - apply app_inv_head in H; apply z_str_inj; assumption.
  - apply (f_equal (@List.length Z)) in H; rewrite length_app in H; cbn in H; lia.
  - apply (f_equal (@List.length Z)) in H; rewrite length_app in H; cbn in H; lia.
  - lia.
Qed.

Lemma eip_block_headers (u : UCD) (self : EC2ToTerraform) (i : Instance) (k : Z)
    (eip : Address) :
  filter (starts_with eip_header_prefix) (eip_block u self i k eip) =
  [eip_header_of (resource_name u self i) k].
Proof.
  unfold eip_block, eip_header_of; cbv zeta.
  destruct (truthy_list (eip_Tags eip)); reflexivity.
Qed.

Lemma eip_loop_headers (u : UCD) (self : EC2ToTerraform) (i : Instance) (k : Z)
    (eips : list Address) :
  filter (starts_with eip_header_prefix) (eip_loop u self i k eips) =
  map (fun n => eip_header_of (resource_name u self i) (k + Z.of_nat n))
    (seq 0 (List.length eips)).
Proof.
  revert k; induction eips as [|eip eips IH]; intros k; [reflexivity|].
  cbn [eip_loop]; rewrite filter_app, eip_block_headers, IH.
  cbn [List.length seq map app]; rewrite Z.add_0_r; f_equal.
  rewrite <- seq_shift, map_map; apply map_ext; intros n; f_equal; lia.
Qed.

Lemma eip_section_nil_iff (u : UCD) (self : EC2ToTerraform) (i : Instance) :
  _generate_elastic_ip_resources u self i = [] <-> elastic_ips_data self = [].
Proof.
  unfold _generate_elastic_ip_resources.
  destruct (elastic_ips_data self) as [|eip eips]; [split; reflexivity|].
  split; [|discriminate]; cbn [eip_loop]; unfold eip_block; cbv zeta.
  destruct (truthy_list (eip_Tags eip)); cbn [app join]; discriminate.
Qed.

(** The Elastic IP section is empty exactly when the instance has no
    Elastic IP; its lines hold exactly one [resource "aws_eip"] line per
    Elastic IP, and no two of these lines are equal, so the [aws_eip]
    resources get pairwise distinct names. *)
Theorem eip_resources_distinct (u : UCD) (self : EC2ToTerraform) (i : Instance) :
  (_generate_elastic_ip_resources u self i = [] <-> elastic_ips_data self = []) /\
  List.length (filter (starts_with eip_header_prefix)
                 (eip_loop u self i 0 (elastic_ips_data self))) =
    List.length (elastic_ips_data self) /\
  NoDup (filter (starts_with eip_header_prefix)
           (eip_loop u self i 0 (elastic_ips_data self))).
Proof.
  rewrite eip_loop_headers; split; [|split].
  - apply eip_section_nil_iff.
  - rewrite length_map, length_seq; reflexivity.
  - apply NoDup_map_NoDup_ForallPairs; [|apply seq_NoDup].
    intros a b _ _ H; apply eip_header_inj in H; lia.
Qed.

(** ** [_get_volume_details] *)

Lemma find_volume_some (vols : list Volume) (v : text) (y : Volume) :
  find_volume vols (Some v) = Some y -> In y vols /\ vol_VolumeId y = v.
Proof.
  induction vols as [|w vols IH]; cbn [find_volume]; [discriminate|].
  unfold opt_text_eqb; destruct (text_eqb (vol_VolumeId w) v) eqn:E.
  - intros H; injection H as <-; apply text_eqb_spec in E; split; [left|]; auto.
  - intros H; destruct (IH H); split; [right|]; auto.
Qed.

Lemma find_volume_in (vols : list Volume) (x : Volume) :
  In x vols -> exists y, find_volume vols (Some (vol_VolumeId x)) = Some y.
Proof.
  induction vols as [|w vols IH]; [intros []|]; intros Hin; cbn [find_volume].
  unfold opt_text_eqb; destruct (text_eqb (vol_VolumeId w) (vol_VolumeId x)) eqn:E; eauto.
  destruct Hin as [<-|Hin]; [|auto].
  assert (text_eqb (vol_VolumeId w) (vol_VolumeId w) = true) by (apply text_eqb_spec; reflexivity).
  congruence.
Qed.

Section VolumeLoop.
Variable describe_volumes : text -> api_result (list Volume).
Hypothesis describe_consistent :
  forall w ys, describe_volumes w = Response ys -> Forall (fun y => vol_VolumeId y = w) ys.


Lemma volume_loop_fetched (bds : list BlockDeviceMapping) (vols : list Volume)
    (err : list text) :
  Forall (fun y => exists ys, describe_volumes (vol_VolumeId y) = Response (y :: ys)) vols ->
  Forall (fun y => exists ys, describe_volumes (vol_VolumeId y) = Response (y :: ys))
    (fst (volume_loop describe_volumes bds vols err)).
Proof.
  revert vols err; induction bds as [|bd bds IH]; intros vols err Hv; cbn [volume_loop]; [exact Hv|].
  destruct (volume_id_of bd) as [[|c t]|]; auto.
  destruct (describe_volumes (c :: t)) as [[|y ys]|e] eqn:E; auto.
  apply IH, Forall_app; split; [exact Hv|].
  constructor; [|constructor].
  pose proof (describe_consistent _ _ E) as Hc; inversion Hc as [|? ? Hy]; subst.
  exists ys; rewrite Hy; exact E.
Qed.

Lemma volume_loop_keeps (bds : list BlockDeviceMapping) (vols : list Volume)
    (err : list text) (y : Volume) :
  In y vols -> In y (fst (volume_loop describe_volumes bds vols err)).
Proof.
  revert vols err; induction bds as [|bd bds IH]; intros vols err Hv; cbn [volume_loop]; [exact Hv|].
  destruct (volume_id_of bd) as [[|c t]|]; auto.
  destruct (describe_volumes (c :: t)) as [[|z zs]|e]; auto.
  apply IH, in_or_app; left; exact Hv.
Qed.

Lemma volume_loop_gets (bds : list BlockDeviceMapping) (vols : list Volume)
    (err : list text) (bd : BlockDeviceMapping) (v : text) (x : Volume) (xs : list Volume) :
  In bd bds -> volume_id_of bd = Some v -> v <> [] ->
  describe_volumes v = Response (x :: xs) ->
  In x (fst (volume_loop describe_volumes bds vols err)).
Proof.
  intros Hin Hid Hv Hd; revert vols err; induction bds as [|bd' bds IH];
    intros vols err; [destruct Hin|]; cbn [volume_loop].
  destruct Hin as [<-|Hin].
  - rewrite Hid; destruct v as [|c t]; [congruence|]; rewrite Hd.
    apply volume_loop_keeps, in_or_app; right; left; reflexivity.
  - destruct (volume_id_of bd') as [[|c t]|]; auto.
    destruct (describe_volumes (c :: t)) as [[|z zs]|e]; auto.
Qed.
End VolumeLoop.

(** Starting from the empty [volumes_data] of [__init__], when
    [describe_volumes] only answers volumes of the id asked for, every
    mapping whose volume id [v] is answered with a nonempty list gets its
    first volume looked up by [find_volume]: failures of the other calls do
    not stop the loop, and no other volume is found for [v]. *)
Theorem volume_details_lookup
    (describe_volumes : text -> api_result (list Volume)) (self : EC2ToTerraform)
    (i : Instance) (bd : BlockDeviceMapping) (v : text) (x : Volume) (xs : list Volume) :
  (forall w ys, describe_volumes w = Response ys -> Forall (fun y => vol_VolumeId y = w) ys) ->
  volumes_data self = [] ->
  In bd (get_list (BlockDeviceMappings i)) -> volume_id_of bd = Some v -> v <> [] ->
  describe_volumes v = Response (x :: xs) ->
  find_volume (volumes_data (fst (_get_volume_details describe_volumes self i))) (Some v) =
    Some x.
Proof.
  intros Hc He Hin Hid Hv Hd; unfold _get_volume_details; rewrite He.
  destruct (volume_loop describe_volumes (get_list (BlockDeviceMappings i)) [] [])
    as [vols err] eqn:L; cbn [fst volumes_data with_volumes].
  assert (Hx : In x vols)
    by (replace vols with (fst (volume_loop describe_volumes (get_list (BlockDeviceMappings i)) [] []))
          by (rewrite L; reflexivity);
        eapply volume_loop_gets; eauto).
  assert (Hf : Forall (fun y => exists ys, describe_volumes (vol_VolumeId y) = Response (y :: ys)) vols)
    by (replace vols with (fst (volume_loop describe_volumes (get_list (BlockDeviceMappings i)) [] []))
          by (rewrite L; reflexivity);
        apply volume_loop_fetched; auto).
  pose proof (describe_consistent_x := Hc _ _ Hd); inversion describe_consistent_x as [|? ? Hxv]; subst.
  destruct (find_volume_in vols x Hx) as [y Hy]; rewrite Hy.
  destruct (find_volume_some _ _ _ Hy) as [Hiny Hyv].
  rewrite Forall_forall in Hf; destruct (Hf y Hiny) as [ys Hys].
  rewrite Hyv, Hd in Hys; congruence.
Qed.

Lemma volume_loop_err (d : text -> api_result (list Volume)) (bds : list BlockDeviceMapping)
    (vols : list Volume) (err : list text) :
  exists s, snd (volume_loop d bds vols err) = err ++ s.
Proof.
  revert vols err; induction bds as [|bd bds IH]; intros vols err; cbn [volume_loop].
  - exists []; rewrite app_nil_r; reflexivity.
  - destruct (volume_id_of bd) as [[|c t]|]; auto.
    destruct (d (c :: t)) as [[|z zs]|e]; auto.
    destruct (IH vols (err ++ [lit "Warning: Could not retrieve volume " ++ (c :: t) ++
                                lit ": " ++ e])) as [s Hs].
    rewrite Hs, <- app_assoc; eexists; reflexivity.
Qed.

Lemma volume_loop_quiet (d : text -> api_result (list Volume)) (bds : list BlockDeviceMapping)
    (vols : list Volume) :
  snd (volume_loop d bds vols []) = [] <->
  Forall (fun bd => forall v e, volume_id_of bd = Some v -> v <> [] -> d v <> ClientError e) bds.
Proof.
  revert vols; induction bds as [|bd bds IH]; intros vols; cbn [volume_loop].
  - split; auto.
  - rewrite Forall_cons_iff.
    destruct (volume_id_of bd) as [[|c t]|] eqn:Hid.
    + rewrite IH; split; [intros H; split; [intros v e Hv; injection Hv as <-; congruence|exact H]|tauto].
    + destruct (d (c :: t)) as [[|z zs]|e] eqn:Hd.
      * rewrite IH; split; [intros H; split; [intros v e Hv _; injection Hv as <-; congruence|exact H]|tauto].
      * rewrite IH; split; [intros H; split; [intros v e Hv _; injection Hv as <-; congruence|exact H]|tauto].
      * split; [|intros [H _]; destruct (H (c :: t) e eq_refl ltac:(discriminate) Hd)].
        match goal with
        | |- snd (volume_loop _ _ _ ?E) = [] -> _ =>
            destruct (volume_loop_err d bds vols E) as [s Hs]; rewrite Hs
        end.
        intros H; apply (f_equal (@List.length text)) in H.
        rewrite !length_app in H; cbn in H; lia.
    + rewrite IH; split; [intros H; split; [intros v e Hv; discriminate|exact H]|tauto].
Qed.

(** [_get_volume_details] prints no warning exactly when no
    [describe_volumes] call it makes (one per mapping with a nonempty
    volume id) raises [ClientError]. *)
Theorem volume_details_warnings
    (describe_volumes : text -> api_result (list Volume)) (self : EC2ToTerraform)
    (i : Instance) :
  snd (_get_volume_details describe_volumes self i) = [] <->
  Forall (fun bd => forall v e, volume_id_of bd = Some v -> v <> [] ->
                                describe_volumes v <> ClientError e)
    (get_list (BlockDeviceMappings i)).
Proof.
  unfold _get_volume_details.
  rewrite <- (volume_loop_quiet describe_volumes _ (volumes_data self)).
  destruct (volume_loop describe_volumes (get_list (BlockDeviceMappings i)) (volumes_data self) []);
    reflexivity.
Qed.

Lemma volume_details_lookup_witness :
  (forall w ys, sample_describe_volumes w = Response ys ->
                Forall (fun y => vol_VolumeId y = w) ys) /\
  volumes_data (mk_self (Some storage_instance) []) = [] /\
  In (ebs_mapping "/dev/sdf" "vol-2") (get_list (BlockDeviceMappings storage_instance)) /\
  volume_id_of (ebs_mapping "/dev/sdf" "vol-2") = Some (lit "vol-2") /\
  lit "vol-2" <> [] /\
  sample_describe_volumes (lit "vol-2") = Response [gp3_volume (lit "vol-2")] /\
  find_volume (volumes_data (fst (_get_volume_details sample_describe_volumes
                                   (mk_self (Some storage_instance) []) storage_instance)))
    (Some (lit "vol-2")) = Some (gp3_volume (lit "vol-2")).
Proof.
  assert (Hc : forall w ys, sample_describe_volumes w = Response ys ->
                            Forall (fun y => vol_VolumeId y = w) ys).
  { intros w ys; unfold sample_describe_volumes; destruct (text_eqb w (lit "vol-1"));
      [discriminate|intros H; injection H as <-; repeat constructor]. }
  assert (Hin : In (ebs_mapping "/dev/sdf" "vol-2") (get_list (BlockDeviceMappings storage_instance)))
    by (simpl; tauto).
  assert (Hne : lit "vol-2" <> []) by discriminate.
  split; [exact Hc|split; [reflexivity|split; [exact Hin|split; [reflexivity|split; [exact Hne|split; [reflexivity|]]]]]].
  exact (volume_details_lookup sample_describe_volumes (mk_self (Some storage_instance) [])
           storage_instance _ _ _ [] Hc eq_refl Hin eq_refl Hne eq_refl).
Defined.

(** ** [_get_instance_attributes] *)

(** On an instance without the two attributes yet, [_get_instance_attributes]
    leads to [source_dest_check = false] exactly when the first two calls
    succeed and the second answers [Value] [False]; to
    [disable_api_termination = true] exactly when all three calls succeed and
    the third answers [Value] [True]; and it prints no warning exactly when
    all three calls succeed. *)
Theorem instance_attributes_effect
    (describe_instance_attribute : text -> api_result InstanceAttribute) (i : Instance) :
  SourceDestCheckAttribute i = None -> DisableApiTerminationAttribute i = None ->
  (src_dst_lines (fst (_get_instance_attributes describe_instance_attribute i)) =
     [lit "  source_dest_check = false"] <->
   exists r1 r2,
     describe_instance_attribute (lit "userData") = Response r1 /\
     describe_instance_attribute (lit "sourceDestCheck") = Response r2 /\
     battr_Value (bool_attr_or_empty (SourceDestCheck r2)) = Some false) /\
  (termination_lines (fst (_get_instance_attributes describe_instance_attribute i)) =
     [lit "  disable_api_termination = true"] <->
   exists r1 r2 r3,
     describe_instance_attribute (lit "userData") = Response r1 /\
     describe_instance_attribute (lit "sourceDestCheck") = Response r2 /\
     describe_instance_attribute (lit "disableApiTermination") = Response r3 /\
     battr_Value (bool_attr_or_empty (DisableApiTermination r3)) = Some true) /\
  (snd (_get_instance_attributes describe_instance_attribute i) = [] <->
   exists r1 r2 r3,
     describe_instance_attribute (lit "userData") = Response r1 /\
     describe_instance_attribute (lit "sourceDestCheck") = Response r2 /\
     describe_instance_attribute (lit "disableApiTermination") = Response r3).
Proof.
  intros Hs Ht; unfold _get_instance_attributes, src_dst_lines, termination_lines.
  destruct (describe_instance_attribute (lit "userData")) as [r1|e1];
  [destruct (describe_instance_attribute (lit "sourceDestCheck")) as [r2|e2];
   [destruct (describe_instance_attribute (lit "disableApiTermination")) as [r3|e3]|]|];
  cbn [fst snd with_attributes SourceDestCheckAttribute DisableApiTerminationAttribute
       UserDataAttribute];
  rewrite ?Hs, ?Ht;
  try destruct (battr_Value (bool_attr_or_empty (SourceDestCheck r2))) as [[|]|] eqn:Ev2;
  try destruct (battr_Value (bool_attr_or_empty (DisableApiTermination r3))) as [[|]|] eqn:Ev3;
  cbn [negb];
  repeat split; intros H;
  repeat match goal with
         | H : exists _, _ |- _ => destruct H
         | H : _ /\ _ |- _ => destruct H
         end;
  try discriminate; try congruence; eauto 10.
Qed.

Lemma instance_attributes_effect_witness :
  SourceDestCheckAttribute (mk_instance None None None None) = None /\
  DisableApiTerminationAttribute (mk_instance None None None None) = None /\
  src_dst_lines (fst (_get_instance_attributes sample_describe_attribute
                        (mk_instance None None None None))) =
    [lit "  source_dest_check = false"] /\
  termination_lines (fst (_get_instance_attributes sample_describe_attribute
                            (mk_instance None None None None))) = [] /\
  snd (_get_instance_attributes sample_describe_attribute (mk_instance None None None None)) =
    [lit "Warning: Could not retrieve some instance attributes: " ++
     lit "UnauthorizedOperation"].
Proof.
  destruct (instance_attributes_effect sample_describe_attribute
              (mk_instance None None None None) eq_refl eq_refl) as [[_ Hsdc] _].
  split; [reflexivity|split; [reflexivity|split; [|split; reflexivity]]].
  apply Hsdc; do 2 eexists; split; [reflexivity|split; reflexivity].
Defined.

(** ** [_generate_network_interfaces] *)

Lemma join_head_nonempty (sep x : text) (xs : list text) :
  x <> [] -> join sep (x :: xs) <> [].
Proof.
  intros Hx; destruct xs as [|y ys]; [exact Hx|].
  cbn [join]; destruct x; [congruence|discriminate].
Qed.

Lemma eni_blocks_nonempty (rn : text) (s : list NetworkInterface) :
  s <> [] -> join nl (flat_map (eni_block rn) s) <> [].
Proof.
  destruct s as [|e s]; [congruence|intros _].
  cbn [flat_map]; unfold eni_block at 1; cbv zeta.
  cbn [app]; apply join_head_nonempty; discriminate.
Qed.

Lemma eni_section_nil_iff (u : UCD) (self : EC2ToTerraform) (i : Instance) :
  _generate_network_interfaces u self i = [] <->
  (List.length (network_interfaces_data self) <= 1)%nat.
Proof.
  unfold _generate_network_interfaces.
  destruct (Nat.leb_spec (List.length (network_interfaces_data self)) 1) as [H|H];
    [split; auto|].
  split; [|lia]; intros E; exfalso; revert E; apply eni_blocks_nonempty.
  assert (Hp := Permutation_length (sorted_enis_perm (network_interfaces_data self))).
  destruct (sorted_enis (network_interfaces_data self)) as [|a [|b t]]; cbn in Hp |- *;
    [lia|lia|discriminate].
Qed.

(** With two or more interfaces, [_generate_network_interfaces] leaves out
    exactly one interface [e], one of least sort key ([DeviceIndex], [999]
    when there is none), and renders the others in ascending key order. *)
Theorem network_interfaces_rest (u : UCD) (self : EC2ToTerraform) (i : Instance) :
  (2 <= List.length (network_interfaces_data self))%nat ->
  exists e s,
    Permutation (e :: s) (network_interfaces_data self) /\
    Forall (key_le e) s /\ StronglySorted key_le s /\
    _generate_network_interfaces u self i =
      join nl (flat_map (eni_block (resource_name u self i)) s).
Proof.
  intros H.
  assert (Hp := sorted_enis_perm (network_interfaces_data self)).
  assert (Hs := sorted_enis_sorted (network_interfaces_data self)).
  unfold _generate_network_interfaces.
  destruct (Nat.leb_spec (List.length (network_interfaces_data self)) 1); [lia|].
  destruct (sorted_enis (network_interfaces_data self)) as [|e s].
  - apply Permutation_length in Hp; cbn in Hp; lia.
  - apply StronglySorted_inv in Hs; destruct Hs as [Hs Hall].
    exists e, s; repeat split; assumption.
Qed.

(** An interface without [Attachment] is sorted with key [999] but named
    and attached with device index [0]: after an attached primary
    interface, two such interfaces give two [aws_network_interface]
    resources of the same name [<name>_eni_0]. *)
Theorem unattached_interfaces_same_name (u : UCD) (self : EC2ToTerraform) (i : Instance)
    (p e1 e2 : NetworkInterface) :
  network_interfaces_data self = [p; e1; e2] -> sort_key p < 999 ->
  eni_Attachment e1 = None -> eni_Attachment e2 = None ->
  _generate_network_interfaces u self i =
    join nl (eni_block (resource_name u self i) e1 ++ eni_block (resource_name u self i) e2) /\
  nth 1 (eni_block (resource_name u self i) e1) [] =
    lit "resource " ++ quoted (lit "aws_network_interface") ++ lit " " ++
    quoted (resource_name u self i ++ lit "_eni_0") ++ lit " {" /\
  nth 1 (eni_block (resource_name u self i) e2) [] =
    nth 1 (eni_block (resource_name u self i) e1) [].
Proof.
  intros Hd Hp H1 H2.
  assert (K1 : sort_key e1 = 999) by (unfold sort_key, device_index_or; rewrite H1; reflexivity).
  assert (K2 : sort_key e2 = 999) by (unfold sort_key, device_index_or; rewrite H2; reflexivity).
  assert (D1 : device_index_or 0 e1 = 0) by (unfold device_index_or; rewrite H1; reflexivity).
  assert (D2 : device_index_or 0 e2 = 0) by (unfold device_index_or; rewrite H2; reflexivity).
  split; [|split].
  - unfold _generate_network_interfaces; rewrite Hd; cbn [List.length Nat.leb].
    unfold sorted_enis; cbn [fold_left insert_by_key].
    rewrite K1; destruct (Z.ltb_spec 999 (sort_key p)); [lia|].
    cbn [insert_by_key]; rewrite K2; destruct (Z.ltb_spec 999 (sort_key p)); [lia|].
    cbn [insert_by_key]; rewrite K1, Z.ltb_irrefl; cbn [tl flat_map]; rewrite app_nil_r;
      reflexivity.
  - unfold eni_block; cbv zeta; rewrite D1; reflexivity.
  - unfold eni_block; cbv zeta; rewrite D1, D2; reflexivity.
Qed.

Lemma network_interfaces_rest_witness :
  (2 <= List.length (network_interfaces_data
                       (mk_self None [unattached_eni "subnet-b"; mk_eni 0 "subnet-a"])))%nat /\
  exists e s,
    Permutation (e :: s) [unattached_eni "subnet-b"; mk_eni 0 "subnet-a"] /\
    Forall (key_le e) s /\ StronglySorted key_le s /\
    _generate_network_interfaces ascii_ucd
      (mk_self None [unattached_eni "subnet-b"; mk_eni 0 "subnet-a"]) sample_bare =
      join nl (flat_map (eni_block (resource_name ascii_ucd
        (mk_self None [unattached_eni "subnet-b"; mk_eni 0 "subnet-a"]) sample_bare)) s).
Proof.
  assert (H : (2 <= List.length (network_interfaces_data
                 (mk_self None [unattached_eni "subnet-b"; mk_eni 0 "subnet-a"])))%nat)
    by (cbn; lia).
  split; [exact H|].
  exact (network_interfaces_rest ascii_ucd
           (mk_self None [unattached_eni "subnet-b"; mk_eni 0 "subnet-a"]) sample_bare H).
Defined.

Lemma unattached_interfaces_same_name_witness :
  (network_interfaces_data
     (mk_self None [mk_eni 0 "subnet-a"; unattached_eni "subnet-b"; unattached_eni "subnet-c"]) =
     [mk_eni 0 "subnet-a"; unattached_eni "subnet-b"; unattached_eni "subnet-c"] /\
   sort_key (mk_eni 0 "subnet-a") < 999 /\
   eni_Attachment (unattached_eni "subnet-b") = None /\
   eni_Attachment (unattached_eni "subnet-c") = None) /\
  nth 1 (eni_block (resource_name ascii_ucd
     (mk_self None [mk_eni 0 "subnet-a"; unattached_eni "subnet-b"; unattached_eni "subnet-c"])
     sample_bare) (unattached_eni "subnet-c")) [] =
  nth 1 (eni_block (resource_name ascii_ucd
     (mk_self None [mk_eni 0 "subnet-a"; unattached_eni "subnet-b"; unattached_eni "subnet-c"])
     sample_bare) (unattached_eni "subnet-b")) [].
Proof.
  assert (Hk : sort_key (mk_eni 0 "subnet-a") < 999) by (cbn; lia).
  split; [split; [reflexivity|split; [exact Hk|split; reflexivity]]|].
  exact (proj2 (proj2 (unattached_interfaces_same_name ascii_ucd
    (mk_self None [mk_eni 0 "subnet-a"; unattached_eni "subnet-b"; unattached_eni "subnet-c"])
    sample_bare (mk_eni 0 "subnet-a") (unattached_eni "subnet-b") (unattached_eni "subnet-c")
    eq_refl Hk eq_refl eq_refl))).
Defined.

(** ** [generate_terraform]: the document *)

Lemma if_nonempty_cases (t : text) (b : bool) :
  (t = [] <-> b = false) -> if_nonempty t = if b then [t] else [].
Proof.
  destruct t as [|c t], b; cbn; intros [H1 H2]; auto.
  - discriminate (H1 eq_refl).
  - discriminate (H2 eq_refl).
Qed.

(** The document is the header, the instance resource, the Elastic IP
    section when the instance has an Elastic IP, the interface section when
    it has two or more network interfaces, and the recommendations, joined
    by blank lines; it raises exactly when the instance resource raises. *)
Theorem full_config_layout (u : UCD) (dec : text -> option text) (now : text)
    (self : EC2ToTerraform) (i : Instance) :
  full_config u dec now self i =
  exc_map (fun inst =>
    join (nl ++ nl)
      ([_generate_header now self i; inst] ++
       (if negb (List.length (elastic_ips_data self) =? 0)%nat
        then [_generate_elastic_ip_resources u self i] else []) ++
       (if negb (List.length (network_interfaces_data self) <=? 1)%nat
        then [_generate_network_interfaces u self i] else []) ++
       [_generate_variables_recommendation]))
    (_generate_instance_resource u dec self i).
Proof.
  unfold full_config, config_body, exc_map, exc_bind.
  destruct (_generate_instance_resource u dec self i) as [inst|e]; [|reflexivity].
  rewrite (if_nonempty_cases (_generate_elastic_ip_resources u self i) (negb (List.length (elastic_ips_data self) =? 0)%nat)).
  2:{ rewrite eip_section_nil_iff; destruct (elastic_ips_data self); cbn; intuition congruence. }
  rewrite (if_nonempty_cases (_generate_network_interfaces u self i) (negb (List.length (network_interfaces_data self) <=? 1)%nat)).
  2:{ rewrite eni_section_nil_iff; destruct (Nat.leb_spec (List.length (network_interfaces_data self)) 1);
      cbn; intuition (congruence || lia). }
  reflexivity.
Qed.

(** ** User data comments *)

Lemma split_on_not_nil (c : Z) (s : text) : split_on c s <> [].
Proof.
  destruct s as [|x s]; cbn [split_on]; [discriminate|].
  destruct (x =? c); [discriminate|]; destruct (split_on c s); discriminate.
Qed.

Lemma join_split_on (c : Z) (s : text) : join [c] (split_on c s) = s.
Proof.
  induction s as [|x s IH]; [reflexivity|]; cbn [split_on].
  destruct (Z.eqb_spec x c) as [->|Hx].
  - destruct (split_on c s) as [|w ws] eqn:E; [destruct (split_on_not_nil c s E)|].
    cbn [join app]; rewrite <- IH; reflexivity.
  - destruct (split_on c s) as [|w ws] eqn:E; [destruct (split_on_not_nil c s E)|].
    rewrite <- IH; destruct ws; reflexivity.
Qed.

Lemma split_on_pieces (c : Z) (s : text) : Forall (fun w => ~ In c w) (split_on c s).
Proof.
  induction s as [|x s IH]; cbn [split_on]; [repeat constructor; intros []|].
  destruct (Z.eqb_spec x c) as [->|Hx]; [constructor; [intros []|exact IH]|].
  destruct (split_on c s) as [|w ws]; [repeat constructor; intros [H|[]]; congruence|].
  inversion IH as [|? ? Hw Hws]; subst; constructor; [|exact Hws].
  intros [H|H]; [congruence|contradiction].
Qed.

(** When the payload decodes to a text [t] shorter than 500 code points,
    the user-data lines end with comment lines, each [  # ] followed by a
    piece of [t] with no newline in it; stripping the prefix and joining the
    pieces with newlines gives back [t]. *)
Theorem user_data_comment_round_trip (dec : text -> option text) (i : Instance)
    (v t : text) :
  match UserDataAttribute i with Some a => tattr_Value a | None => None end = Some v ->
  v <> [] -> dec v = Some t -> (List.length t < 500)%nat ->
  exists cs,
    user_data_lines dec i =
      [nl ++ lit "  # User data (base64 encoded)"; lit "  user_data_base64 = " ++ quoted v;
       decoded_header] ++ cs /\
    Forall (fun c => firstn 4 c = lit "  # " /\ ~ In 10 (skipn 4 c)) cs /\
    join nl (map (skipn 4) cs) = t.
Proof.
  intros Hv Hne Hd Hl.
  exists (map (fun line => lit "  # " ++ line) (split_on 10 t)); split; [|split].
  - unfold user_data_lines; cbv zeta; rewrite Hv.
    destruct v as [|c w]; [contradiction|]; rewrite Hd.
    destruct (Nat.ltb_spec (List.length t) 500); [reflexivity|lia].
  - apply Forall_map; eapply Forall_impl; [|apply split_on_pieces].
    intros w Hw; split; [reflexivity|exact Hw].
  - rewrite map_map; cbn [skipn lit]; rewrite map_id; apply join_split_on.
Qed.

Lemma user_data_comment_round_trip_witness :
  (match UserDataAttribute (user_data_instance "ZWNobyBoaQpleGl0") with
   | Some a => tattr_Value a | None => None end = Some (lit "ZWNobyBoaQpleGl0") /\
   lit "ZWNobyBoaQpleGl0" <> [] /\
   sample_b64decode (lit "ZWNobyBoaQpleGl0") = Some (lit "echo hi" ++ nl ++ lit "exit") /\
   (List.length (lit "echo hi" ++ nl ++ lit "exit") < 500)%nat) /\
  exists cs,
    user_data_lines sample_b64decode (user_data_instance "ZWNobyBoaQpleGl0") =
      [nl ++ lit "  # User data (base64 encoded)";
       lit "  user_data_base64 = " ++ quoted (lit "ZWNobyBoaQpleGl0");
       decoded_header] ++ cs /\
    Forall (fun c => firstn 4 c = lit "  # " /\ ~ In 10 (skipn 4 c)) cs /\
    join nl (map (skipn 4) cs) = lit "echo hi" ++ nl ++ lit "exit".
Proof.
  assert (Hne : lit "ZWNobyBoaQpleGl0" <> []) by discriminate.
  assert (Hl : (List.length (lit "echo hi" ++ nl ++ lit "exit") < 500)%nat) by (cbn; lia).
  split; [split; [reflexivity|split; [exact Hne|split; [reflexivity|exact Hl]]]|].
  exact (user_data_comment_round_trip sample_b64decode (user_data_instance "ZWNobyBoaQpleGl0")
           _ _ eq_refl Hne eq_refl Hl).
Defined.

(** ** IAM instance profile *)

Lemma split_on_after (c : Z) (p w : text) :
  exists a A, split_on c (p ++ c :: w) = a :: A ++ split_on c w.
Proof.
  induction p as [|x p [a [A IH]]]; cbn [app split_on].
  - rewrite Z.eqb_refl; exists [], []; reflexivity.
  - rewrite IH; destruct (x =? c).
    + exists [], (a :: A); reflexivity.
    + exists (x :: a), A; reflexivity.
Qed.

Lemma split_on_no_sep (c : Z) (w : text) : ~ In c w -> split_on c w = [w].
Proof.
  induction w as [|x w IH]; intros Hn; [reflexivity|]; cbn [split_on].
  destruct (Z.eqb_spec x c) as [->|Hx]; [destruct Hn; left; reflexivity|].
  rewrite IH; [reflexivity|intros H; apply Hn; right; exact H].
Qed.

(** [arn.split('/')[-1]] is the part of the ARN after its last [/]. *)
Lemma last_segment (p w : text) : ~ In 47 w -> last (split_on 47 (p ++ 47 :: w)) [] = w.
Proof.
  intros Hn; destruct (split_on_after 47 p w) as [a [A ->]]; rewrite split_on_no_sep by exact Hn.
  rewrite app_comm_cons; apply last_last.
Qed.

(** When the instance profile ARN is [prefix/name] with no [/] in [name],
    the block sets [iam_instance_profile] to [name], and has no such line
    when [name] is empty (an ARN ending in [/]). *)
Theorem iam_profile_name (i : Instance) (p : IamInstanceProfile) (prefix name : text) :
  inst_IamInstanceProfile i = Some p -> iam_Arn p = Some (prefix ++ 47 :: name) ->
  ~ In 47 name ->
  iam_lines i = match name with
                | [] => []
                | _ => [lit "  iam_instance_profile = " ++ quoted name]
                end.
Proof.
  intros Hp Ha Hn; unfold iam_lines; rewrite Hp; cbv zeta; rewrite Ha; cbn [get_or].
  replace (match prefix ++ 47 :: name with [] => [] | _ => last (split_on 47 (prefix ++ 47 :: name)) [] end)
    with name by (rewrite last_segment by exact Hn; destruct prefix; reflexivity).
  destruct name; reflexivity.
Qed.

Lemma iam_profile_name_witness :
  (inst_IamInstanceProfile (with_profile sample_bare (Some sample_profile)) = Some sample_profile /\
   iam_Arn sample_profile =
     Some (lit "arn:aws:iam::123456789012:instance-profile" ++ 47 :: lit "web-role") /\
   ~ In 47 (lit "web-role")) /\
  iam_lines (with_profile sample_bare (Some sample_profile)) =
    [lit "  iam_instance_profile = " ++ quoted (lit "web-role")].
Proof.
  assert (Hn : ~ In 47 (lit "web-role")) by (cbn; lia).
  split; [split; [reflexivity|split; [reflexivity|exact Hn]]|].
  exact (iam_profile_name (with_profile sample_bare (Some sample_profile)) sample_profile
           (lit "arn:aws:iam::123456789012:instance-profile") (lit "web-role") eq_refl eq_refl Hn).
Defined.


(** ** Tag values *)

(** Every double quote of [escape_dq v] directly follows a backslash. *)
Theorem escape_dq_quotes_escaped (v a b : text) :
  escape_dq v = a ++ 34 :: b -> exists a', a = a' ++ [92].
Proof.
  revert a; induction v as [|x v IH]; intros a H.
  - destruct a; discriminate H.
  - cbn [escape_dq flat_map] in H; fold (escape_dq v) in H.
    destruct (Z.eqb_spec x 34) as [->|Hx].
    + destruct a as [|y [|z a]]; cbn [app] in H.
      * discriminate H.
      * injection H as <- _; exists []; reflexivity.
      * injection H as <- <- H2.
        destruct (IH a H2) as [a' ->]; exists (92 :: 34 :: a'); reflexivity.
    + destruct a as [|y a]; cbn [app] in H; injection H as H1 H2; [congruence|].
      subst y; destruct (IH a H2) as [a' ->]; exists (x :: a'); reflexivity.
Qed.

(** A tag value ending in a backslash gives a tag line whose closing
    double quote directly follows that backslash. *)
Theorem tag_line_trailing_backslash (indent : nat) (tag : Tag) (v : text) :
  tag_Value tag = Some (v ++ [92]) -> exists pre, tag_line indent tag = pre ++ [92; 34].
Proof.
  intros Hv; unfold tag_line; cbv zeta; rewrite Hv; cbn [get_or]; unfold escape_dq, quoted, dq.
  rewrite flat_map_app.
  change (flat_map (fun c => if c =? 34 then [92; 34] else [c]) [92]) with [92].
  eexists; rewrite !app_assoc, <- (app_assoc _ [92] [34]); reflexivity.
Qed.

Lemma escape_dq_quotes_escaped_witness :
  escape_dq (lit "a" ++ [34] ++ lit "b") = (lit "a" ++ [92]) ++ 34 :: lit "b" /\
  exists a', lit "a" ++ [92] = a' ++ [92].
Proof.
  assert (H : escape_dq (lit "a" ++ [34] ++ lit "b") = (lit "a" ++ [92]) ++ 34 :: lit "b")
    by reflexivity.
  split; [exact H|].
  exact (escape_dq_quotes_escaped _ _ _ H).
Defined.

Lemma tag_line_trailing_backslash_witness :
  tag_Value backslash_tag = Some (lit "C:" ++ [92]) /\
  exists pre, tag_line 4 backslash_tag = pre ++ [92; 34].
Proof.
  split; [reflexivity|].
  exact (tag_line_trailing_backslash 4 backslash_tag (lit "C:") eq_refl).
Defined.

(** ** Header *)


Lemma split_on_app_sep (c : Z) (x r : text) :
  ~ In c x -> split_on c (x ++ c :: r) = x :: split_on c r.
Proof.
  induction x as [|z x IH]; intros Hn; cbn [app split_on]; [rewrite Z.eqb_refl; reflexivity|].
  destruct (Z.eqb_spec z c) as [->|Hz]; [destruct Hn; left; reflexivity|].
  rewrite IH; [reflexivity|intros H; apply Hn; right; exact H].
Qed.

Lemma split_on_join (c : Z) (xs : list text) :
  xs <> [] -> Forall (fun x => ~ In c x) xs -> split_on c (join [c] xs) = xs.
Proof.
  induction xs as [|x [|y ys] IH]; intros Hne Hf; [congruence| |].
  - inversion Hf; subst; apply split_on_no_sep; assumption.
  - inversion Hf as [|? ? Hx Hys]; subst.
    change (join [c] (x :: y :: ys)) with (x ++ [c] ++ join [c] (y :: ys)); cbn [app].
    rewrite split_on_app_sep by exact Hx; rewrite IH; [reflexivity|discriminate|exact Hys].
Qed.

Lemma not_in_app (c : Z) (a b : text) : ~ In c a -> ~ In c b -> ~ In c (a ++ b).
Proof. intros Ha Hb H; apply in_app_iff in H; tauto. Qed.

(** When the timestamp, the instance id, the instance name and the region
    hold no newline, the header is eight lines, each a [#] comment. *)
Theorem header_comment_lines (now : text) (self : EC2ToTerraform) (i : Instance) :
  ~ In 10 now -> ~ In 10 (instance_id self) -> ~ In 10 (instance_name self i) ->
  ~ In 10 (region self) ->
  List.length (split_on 10 (_generate_header now self i)) = 8%nat /\
  Forall (fun line => firstn 1 line = lit "#") (split_on 10 (_generate_header now self i)).
Proof.
  intros H1 H2 H3 H4.
  unfold _generate_header, nl; rewrite split_on_join; [split; [reflexivity|]| |].
  - repeat constructor.
  - discriminate.
  - repeat constructor; repeat apply not_in_app; auto; cbn; lia.
Qed.

Lemma header_comment_lines_witness :
  (~ In 10 (lit "2026-01-01T00:00:00") /\
   ~ In 10 (instance_id (mk_self (Some sample_bare) [])) /\
   ~ In 10 (instance_name (mk_self (Some sample_bare) []) sample_bare) /\
   ~ In 10 (region (mk_self (Some sample_bare) []))) /\
  List.length (split_on 10 (_generate_header (lit "2026-01-01T00:00:00")
                              (mk_self (Some sample_bare) []) sample_bare)) = 8%nat /\
  Forall (fun line => firstn 1 line = lit "#")
    (split_on 10 (_generate_header (lit "2026-01-01T00:00:00")
                    (mk_self (Some sample_bare) []) sample_bare)).
Proof.
  assert (H1 : ~ In 10 (lit "2026-01-01T00:00:00")) by (cbn; lia).
  assert (H2 : ~ In 10 (instance_id (mk_self (Some sample_bare) []))) by (cbn; lia).
  assert (H3 : ~ In 10 (instance_name (mk_self (Some sample_bare) []) sample_bare))
    by (vm_compute; lia).
  assert (H4 : ~ In 10 (region (mk_self (Some sample_bare) []))) by (cbn; lia).
  split; [split; [exact H1|split; [exact H2|split; [exact H3|exact H4]]]|].
  exact (header_comment_lines _ _ _ H1 H2 H3 H4).
Defined.

(** ** [_get_elastic_ip_details] *)

(** From the empty [elastic_ips_data] of [__init__]: when
    [describe_addresses] fails, [_get_elastic_ip_details] prints one warning
    and the document gets no Elastic IP section; when it answers, nothing is
    printed and the section is present exactly when the answer lists an
    address. *)
Theorem elastic_ip_lookup (u : UCD)
    (describe_addresses : text -> api_result (option (list Address)))
    (self : EC2ToTerraform) (i : Instance) :
  elastic_ips_data self = [] ->
  match describe_addresses (instance_id self) with
  | Response addresses =>
      snd (_get_elastic_ip_details describe_addresses self) = [] /\
      (_generate_elastic_ip_resources u (fst (_get_elastic_ip_details describe_addresses self)) i
         = [] <-> get_list addresses = [])
  | ClientError e =>
      snd (_get_elastic_ip_details describe_addresses self) =
        [lit "Warning: Could not retrieve Elastic IPs: " ++ e] /\
      _generate_elastic_ip_resources u (fst (_get_elastic_ip_details describe_addresses self)) i
        = []
  end.
Proof.
  intros He; unfold _get_elastic_ip_details.
  destruct (describe_addresses (instance_id self)) as [addresses|e]; cbn [fst snd];
    split; [reflexivity| |reflexivity|].
  - rewrite eip_section_nil_iff; reflexivity.
  - apply eip_section_nil_iff; exact He.
Qed.

Lemma elastic_ip_lookup_witness :
  elastic_ips_data (mk_self (Some sample_bare) []) = [] /\
  snd (_get_elastic_ip_details sample_describe_addresses (mk_self (Some sample_bare) [])) =
    [lit "Warning: Could not retrieve Elastic IPs: " ++ lit "UnauthorizedOperation"] /\
  _generate_elastic_ip_resources ascii_ucd
    (fst (_get_elastic_ip_details sample_describe_addresses (mk_self (Some sample_bare) [])))
    sample_bare = [].
Proof.
  split; [reflexivity|].
  exact (elastic_ip_lookup ascii_ucd sample_describe_addresses (mk_self (Some sample_bare) [])
           sample_bare eq_refl).
Defined.

